(** * VL53L1X time-of-flight sensor driver (adafruit_vl53l1x.py)

    A shallow embedding of the register-level driver.  Python integers are
    [Z], [bytes]/[bytearray] values are [list byte], floats are IEEE 754
    binary64 numbers, and the I2C bus device is an abstract transport whose
    every operation may fail.  Driver code
    runs in a state-and-exception monad over a world that holds the device,
    the session lock and the trace of bus operations issued so far. *)

From Stdlib Require Import ZArith QArith Qabs Lia List Bool String.
From Stdlib Require Import SpecFloat.
From Stdlib Require Import Init.Byte Strings.Byte.
From stdpp Require Import base option list gmap.

Local Open Scope Z_scope.

(** ** Bytes and the [struct] module *)

Module Bytes.

Definition to_Z (b : byte) : Z := Z.of_N (Byte.to_N b).

(** An element of [bytes([...])]: an int in [range(256)], else ValueError. *)
Definition of_Z (z : Z) : option byte :=
  if (0 <=? z) && (z <? 256) then Byte.of_N (Z.to_N z) else None.

(** [bytes(ints)] *)
Fixpoint bytes (ints : list Z) : option (list byte) :=
  match ints with
  | [] => Some []
  | z :: rest =>
      match of_Z z, bytes rest with
      | Some b, Some bs => Some (b :: bs)
      | _, _ => None
      end
  end.

(** [bytearray(n)] for a non-negative count: [n] zero bytes. *)
Definition zeros (n : nat) : list byte := replicate n Byte.x00.

(** [data[:stop]] with Python's slice rules: a negative [stop] counts from
    the end, and both ends are clipped to the sequence. *)
Definition slice_to {A} (data : list A) (stop : Z) : list A :=
  if 0 <=? stop then take (Z.to_nat stop) data
  else take (Z.to_nat (Z.of_nat (length data) + stop)) data.

(** [struct.pack(">H", v)]: two bytes, most significant first; [None] is
    [struct.error] for a value outside 0..0xFFFF. *)
Definition pack_H (v : Z) : option (list byte) :=
  if (0 <=? v) && (v <=? 0xFFFF) then
    match of_Z (Z.shiftr v 8), of_Z (Z.land v 0xFF) with
    | Some hi, Some lo => Some [hi; lo]
    | _, _ => None
    end
  else None.

(** [struct.unpack(">H", buf)[0]]: needs exactly two bytes. *)
Definition unpack_H (buf : list byte) : option Z :=
  match buf with
  | [hi; lo] => Some (Z.lor (Z.shiftl (to_Z hi) 8) (to_Z lo))
  | _ => None
  end.

End Bytes.

Import Bytes.

(** ** Floats *)

Module PyFloat.

(** A Python float is an IEEE 754 binary64 number: 53 bits of precision,
    rounding to nearest, ties to even. *)
Definition prec : Z := 53.
Definition emax : Z := 1024.

(** [float(z)]; exact for every int below 2 ** 53 in magnitude. *)
Definition of_int (z : Z) : spec_float := binary_normalize prec emax z 0 false.

(** [a / b] on ints with [b] not zero: the true quotient rounded once.
    For operands below 2 ** 53 that is the binary64 division of the two
    converted operands. *)
Definition truediv (a b : Z) : spec_float :=
  SFdiv prec emax (of_int a) (of_int b).

(** The rational number a finite float stands for. *)
Definition value (x : spec_float) : option Q :=
  match x with
  | S754_zero _ => Some 0%Q
  | S754_finite s m e =>
      let n := if s then Zneg m else Zpos m in
      Some match e with
           | Z0 => inject_Z n
           | Zpos p => inject_Z (n * 2 ^ Zpos p)
           | Zneg p => Qmake n (2 ^ p)
           end
  | S754_infinity _ | S754_nan => None
  end.

(** The core of the binary64 division when the divisor is 10.0, that is
    5 * 2 ** 50 with exponent -49: the long division is by 5, on the
    dividend without its 50 low bits. *)
Definition div10_core (m1 e1 : Z) : Z * Z * location :=
  let m2 := 5629499534213120 in
  let e2 := -49 in
  let d1 := Zdigits2 m1 in
  let d2 := Zdigits2 m2 in
  let e' := Z.min (fexp prec emax (d1 + e1 - (d2 + e2))) (e1 - e2) in
  let s := e1 - e2 - e' in
  let m' :=
    match s with
    | Zpos _ => Z.shiftl m1 s
    | Z0 => m1
    | Zneg _ => Z0
    end in
  let '(q, r) := Z.div_eucl (Z.shiftr m' 50) 5 in
  (q, e', new_location m2 (Z.shiftl r 50 + Z.land m' (Z.ones 50))).

Definition truediv10_fast (v : Z) : spec_float :=
  match of_int v with
  | S754_finite sx mx ex =>
      let '(mz, ez, lz) := div10_core (Zpos mx) ex in
      binary_round_aux prec emax (xorb sx false) mz ez lz
  | x => SFdiv prec emax x (of_int 10)
  end.

(** What is checked of [v / 10], raw value by raw value: the float is not
    negative, off from [v / 10] by a relative error of at most 2 ** -53, at
    most 6553.5, and exact for the multiples of 5 and no other value. *)
Definition tenth_checked (v : Z) : bool :=
  match truediv10_fast v with
  | S754_zero false => v =? 0
  | S754_finite false m (Zneg p) =>
      let s := Zpos (2 ^ p) in
      (Z.abs (Zpos m * 10 - v * s) * 2 ^ 53 <=? v * s)
      && (Zpos m * 10 <=? 65535 * s)
      && Bool.eqb (Zpos m * 10 =? v * s) (v mod 5 =? 0)
  | _ => false
  end.

Fixpoint all_from (n : nat) (v : Z) (f : Z -> bool) : bool :=
  match n with
  | O => true
  | S n' => f v && all_from n' (v + 1) f
  end.

End PyFloat.

(** ** Exceptions, outcomes and the bus transport *)

Inductive exn : Type :=
| OSError                      (* the transport reported a failure *)
| RuntimeError (msg : string)
| ValueError
| IndexError
| StructError.

Inductive outcome (A : Type) : Type :=
| Ok (a : A)
| Raise (e : exn)
| NoFuel.                      (* the poll loop has not finished yet *)

Arguments Ok {A} a.
Arguments Raise {A} e.
Arguments NoFuel {A}.

(** What the driver asks of the bus, in the order it asks. *)
Inductive event : Type :=
| EvProbe (address : Z)        (* I2CDevice(i2c, address) *)
| EvEnter                      (* with self.i2c_device as i2c: *)
| EvWrite (buf : list byte)    (* i2c.write(buf) *)
| EvReadInto (n : nat)         (* i2c.readinto(buf), len(buf) = n *)
| EvExit                       (* leaving the with block *)
| EvSleep.                     (* time.sleep(0.01) *)

(** The bus device library is not part of the driver: it is a parameter.
    [false] and [None] stand for an [OSError] raised by the transport. *)
Class Transport (D : Type) : Type := {
  bus_probe : Z -> D -> D * bool;
  bus_write : D -> list byte -> D * bool;
  bus_readinto : D -> nat -> D * option (list byte);
  bus_idle : D -> D
}.

Section Monad.

Context {D : Type}.

Record world : Type := World {
  dev : D;
  held : bool;
  trace : list event
}.

Definition M (A : Type) : Type := world -> outcome A * world.

Definition ret {A} (a : A) : M A := fun w => (Ok a, w).

Definition bind {A B} (m : M A) (k : A -> M B) : M B :=
  fun w =>
    match m w with
    | (Ok a, w') => k a w'
    | (Raise e, w') => (Raise e, w')
    | (NoFuel, w') => (NoFuel, w')
    end.

Definition raise {A} (e : exn) : M A := fun w => (Raise e, w).

Definition lift {A} (e : exn) (o : option A) : M A :=
  match o with
  | Some a => ret a
  | None => raise e
  end.

Definition emit (ev : event) (w : world) : world :=
  World (dev w) (held w) (trace w ++ [ev]).

End Monad.

Arguments world : clear implicits.
Arguments M : clear implicits.

Notation "x <- m ;; k" := (bind m (fun x => k))
  (at level 100, m at next level, right associativity).
Notation "m ;;; k" := (bind m (fun _ => k))
  (at level 100, right associativity).

Section Driver.

Context {D : Type} `{T : Transport D}.

(** The I2C device as the driver uses it. *)

(** [I2CDevice(i2c, address)]: the library probes the address and raises
    [ValueError] when no device answers. *)
Definition I2CDevice (address : Z) : M D unit :=
  fun w =>
    let '(d, ok) := bus_probe address (dev w) in
    let w' := emit (EvProbe address) (World d (held w) (trace w)) in
    if ok then (Ok tt, w') else (Raise ValueError, w').

(** [i2c.write(buf)] *)
Definition i2c_write (buf : list byte) : M D unit :=
  fun w =>
    let '(d, ok) := bus_write (dev w) buf in
    let w' := emit (EvWrite buf) (World d (held w) (trace w)) in
    if ok then (Ok tt, w') else (Raise OSError, w').

(** [i2c.readinto(buf)]: the buffer keeps its length; the bytes the device
    supplies overwrite it from the front. *)
Definition i2c_readinto (buf : list byte) : M D (list byte) :=
  fun w =>
    let n := length buf in
    let '(d, r) := bus_readinto (dev w) n in
    let w' := emit (EvReadInto n) (World d (held w) (trace w)) in
    match r with
    | Some bs => (Ok (take n bs ++ drop (length bs) buf), w')
    | None => (Raise OSError, w')
    end.

(** [__enter__] takes the bus lock, [__exit__] gives it back and does not
    swallow the exception.  The library spins on [try_lock] until the lock
    is free; the driver is single-threaded and never nests sessions, so the
    lock is free whenever it asks. *)
Definition enter : M D unit :=
  fun w => (Ok tt, emit EvEnter (World (dev w) true (trace w))).

Definition exit (w : world D) : world D :=
  emit EvExit (World (dev w) false (trace w)).

(** [with self.i2c_device as i2c: body] *)
Definition with_i2c_device {A} (body : M D A) : M D A :=
  fun w =>
    match enter w with
    | (Ok _, w1) => let '(r, w2) := body w1 in (r, exit w2)
    | (Raise e, w1) => (Raise e, w1)
    | (NoFuel, w1) => (NoFuel, w1)
    end.

(** [time.sleep(0.01)] *)
Definition sleep : M D unit :=
  fun w => (Ok tt, emit EvSleep (World (bus_idle (dev w)) (held w) (trace w))).

(** [bytearray(length)] *)
Definition bytearray (length : Z) : M D (list byte) :=
  if length <? 0 then raise ValueError else ret (zeros (Z.to_nat length)).

(** [buf[i]] for a constant index. *)
Definition index (buf : list byte) (i : nat) : M D Z :=
  match buf !! i with
  | Some b => ret (to_Z b)
  | None => raise IndexError
  end.

(** Running [m] appends events to the trace and never rewrites it. *)
Definition grows {A} (m : M D A) : Prop :=
  forall w, exists evs, trace (snd (m w)) = trace w ++ evs.

(** ** Register addresses *)

Definition _VL53L1X_VHV_CONFIG__TIMEOUT_MACROP_LOOP_BOUND : Z := 0x0008.
Definition _GPIO_HV_MUX__CTRL : Z := 0x0030.
Definition _GPIO__TIO_HV_STATUS : Z := 0x0031.
Definition _SYSTEM__INTERRUPT_CLEAR : Z := 0x0086.
Definition _SYSTEM__MODE_START : Z := 0x0087.
Definition _VL53L1X_RESULT__FINAL_CROSSTALK_CORRECTED_RANGE_MM_SD0 : Z := 0x0096.
Definition _VL53L1X_IDENTIFICATION__MODEL_ID : Z := 0x010F.

(** ** Register transaction primitives *)

Definition _write_registerN (address : Z) (data : list byte)
  (length : option Z) : M D unit :=
  let length :=
    match length with
    | None => Z.of_nat (List.length data)
    | Some n => n
    end in
  with_i2c_device
    (hdr <- lift StructError (pack_H address) ;;
     i2c_write (hdr ++ slice_to data length)).

(** [length] defaults to 1 in the source; callers that omit it pass 1. *)
Definition _read_registerN (address : Z) (length : Z) : M D (list byte) :=
  data <- bytearray length ;;
  with_i2c_device
    (hdr <- lift StructError (pack_H address) ;;
     i2c_write hdr ;;;
     i2c_readinto data).

(** ** Properties and control operations *)

Definition model_info : M D (Z * Z * Z) :=
  info <- _read_registerN _VL53L1X_IDENTIFICATION__MODEL_ID 3 ;;
  i0 <- index info 0 ;;
  i1 <- index info 1 ;;
  i2 <- index info 2 ;;
  ret (i0, i1, i2).

Definition distance : M D spec_float :=
  dist <- _read_registerN
            _VL53L1X_RESULT__FINAL_CROSSTALK_CORRECTED_RANGE_MM_SD0 2 ;;
  dist <- lift StructError (unpack_H dist) ;;
  ret (PyFloat.truediv dist 10).

Definition start_ranging : M D unit :=
  _write_registerN _SYSTEM__MODE_START [Byte.x40] None.

Definition stop_ranging : M D unit :=
  _write_registerN _SYSTEM__MODE_START [Byte.x00] None.

Definition clear_interrupt : M D unit :=
  _write_registerN _SYSTEM__INTERRUPT_CLEAR [Byte.x01] None.

Definition _interrupt_polarity : M D Z :=
  reg <- _read_registerN _GPIO_HV_MUX__CTRL 1 ;;
  b <- index reg 0 ;;
  let int_pol := Z.land b 0x10 in
  let int_pol := Z.land (Z.shiftr int_pol 4) 0x01 in
  ret (if int_pol =? 0 then 1 else 0).

(** The left operand of [==] is evaluated first: the status register is
    read before the polarity. *)
Definition data_ready : M D bool :=
  reg <- _read_registerN _GPIO__TIO_HV_STATUS 1 ;;
  b <- index reg 0 ;;
  let lhs := Z.land b 0x01 in
  rhs <- _interrupt_polarity ;;
  if lhs =? rhs then ret true else ret false.

(** ** One-time initialization *)

(** The register values of [_sensor_init], in source order; the comment on
    each row gives the registers it lands on. *)
Definition init_seq_ints : list Z :=
  [
   0x00; 0x00; 0x00; 0x01; 0x02; 0x00; 0x02; 0x08;   (* 0x2d .. 0x34 *)
   0x00; 0x08; 0x10; 0x01; 0x01; 0x00; 0x00; 0x00;   (* 0x35 .. 0x3c *)
   0x00; 0xFF; 0x00; 0x0F; 0x00; 0x00; 0x00; 0x00;   (* 0x3d .. 0x44 *)
   0x00; 0x20; 0x0B; 0x00; 0x00; 0x02; 0x0A; 0x21;   (* 0x45 .. 0x4c *)
   0x00; 0x00; 0x05; 0x00; 0x00; 0x00; 0x00; 0xC8;   (* 0x4d .. 0x54 *)
   0x00; 0x00; 0x38; 0xFF; 0x01; 0x00; 0x08; 0x00;   (* 0x55 .. 0x5c *)
   0x00; 0x01; 0xCC; 0x0F; 0x01; 0xF1; 0x0D; 0x01;   (* 0x5d .. 0x64 *)
   0x68; 0x00; 0x80; 0x08; 0xB8; 0x00; 0x00; 0x00;   (* 0x65 .. 0x6c *)
   0x00; 0x0F; 0x89; 0x00; 0x00; 0x00; 0x00; 0x00;   (* 0x6d .. 0x74 *)
   0x00; 0x00; 0x01; 0x0F; 0x0D; 0x0E; 0x0E; 0x00;   (* 0x75 .. 0x7c *)
   0x00; 0x02; 0xC7; 0xFF; 0x9B; 0x00; 0x00; 0x00;   (* 0x7d .. 0x84 *)
   0x01; 0x00; 0x00    (* 0x85 .. 0x87 *)
  ].

Definition init_seq : option (list byte) := bytes init_seq_ints.

(** The same block as the bytes object the constructor call yields. *)
Definition init_block : list byte := Eval vm_compute in default [] init_seq.

(** [while not self.data_ready: time.sleep(0.01)], unrolled [fuel] times. *)
Fixpoint wait_data_ready (fuel : nat) : M D unit :=
  match fuel with
  | O => fun w => (NoFuel, w)
  | S fuel' =>
      ready <- data_ready ;;
      if ready then ret tt else (sleep ;;; wait_data_ready fuel')
  end.

Definition _sensor_init (fuel : nat) : M D unit :=
  init_seq <- lift ValueError init_seq ;;
  _write_registerN 0x002D init_seq None ;;;
  start_ranging ;;;
  wait_data_ready fuel ;;;
  clear_interrupt ;;;
  stop_ranging ;;;
  _write_registerN _VL53L1X_VHV_CONFIG__TIMEOUT_MACROP_LOOP_BOUND
    [Byte.x09] None ;;;
  _write_registerN 0x0B [Byte.x00] None.

(** The sensor reports "data ready" at poll [k + 1]: [k] polls answer no,
    each followed by a sleep, and the next one answers yes. *)
Inductive ready_after : nat -> world D -> world D -> Prop :=
| ready_now w w' :
    data_ready w = (Ok true, w') -> ready_after O w w'
| ready_later k w w1 w' :
    data_ready w = (Ok false, w1) ->
    ready_after k (snd (sleep w1)) w' ->
    ready_after (S k) w w'.

(** [VL53L1X(i2c, address)]; [address] defaults to 41. *)
Definition __init__ (address : Z) (fuel : nat) : M D unit :=
  I2CDevice address ;;;
  info <- model_info ;;
  let '(model_id, module_type, mask_rev) := info in
  if negb (model_id =? 0xEA) || negb (module_type =? 0xCC)
     || negb (mask_rev =? 0x10)
  then raise (RuntimeError "Wrong sensor ID or type!")
  else _sensor_init fuel.

End Driver.

(** ** Concrete transports *)

Module Loopback.

(** Modelled from the spec: the idealized loopback transport of the
    round-trip property, which the repository does not contain.  It is a
    register file with an address pointer: a write of two or more bytes
    sets the pointer from the big-endian header and stores the payload in
    consecutive registers; a read returns consecutive registers from the
    pointer.  It never fails and registers never change on their own. *)
Record regfile : Type := RegFile {
  cells : gmap Z byte;
  pointer : Z
}.

Fixpoint store (m : gmap Z byte) (a : Z) (bs : list byte) : gmap Z byte :=
  match bs with
  | [] => m
  | b :: bs' => store (<[a := b]> m) (a + 1) bs'
  end.

Fixpoint load (m : gmap Z byte) (a : Z) (n : nat) : list byte :=
  match n with
  | O => []
  | S n' => default Byte.x00 (m !! a) :: load m (a + 1) n'
  end.

Definition write (d : regfile) (buf : list byte) : regfile * bool :=
  match buf with
  | hi :: lo :: payload =>
      let a := to_Z hi * 256 + to_Z lo in
      (RegFile (store (cells d) a payload) (a + Z.of_nat (length payload)),
       true)
  | _ => (d, true)
  end.

Definition readinto (d : regfile) (n : nat) : regfile * option (list byte) :=
  (RegFile (cells d) (pointer d + Z.of_nat n),
   Some (load (cells d) (pointer d) n)).

Definition transport : Transport regfile := {|
  bus_probe := fun _ d => (d, true);
  bus_write := write;
  bus_readinto := readinto;
  bus_idle := fun d => d
|}.

Definition blank : regfile := RegFile ∅ 0.

(** A driver state on a register file holding [bs] from register [a] on. *)
Definition holding (a : Z) (bs : list byte) : world regfile :=
  World (RegFile (store ∅ a bs) 0) false [].

End Loopback.

Module Sensor.

Import Loopback.

(** A stand-in for the chip, to run the driver on: the register file above
    with the identity registers preset, where a measurement completes
    while the driver sleeps.  With ranging started (0x40 in register 0x87)
    an idle period sets bit 0 of the status register 0x31. *)
Definition idle (d : regfile) : regfile :=
  match cells d !! 0x87 with
  | Some Byte.x40 => RegFile (<[0x31 := Byte.x03]> (cells d)) (pointer d)
  | _ => d
  end.

Definition transport : Transport regfile := {|
  bus_probe := fun _ d => (d, true);
  bus_write := write;
  bus_readinto := readinto;
  bus_idle := idle
|}.

Definition fresh : regfile :=
  RegFile (store ∅ 0x010F [Byte.xea; Byte.xcc; Byte.x10]) 0.

Definition power_on : world regfile := World fresh false [].

End Sensor.

Module Flaky.

(** Fault injection over any transport: the state carries the number of
    bus operations that still go through; once it reaches zero every write
    and every read fails and leaves the device alone. *)
Definition write {D} `{T : Transport D} (s : D * nat) (buf : list byte)
  : (D * nat) * bool :=
  match s with
  | (d, O) => ((d, O), false)
  | (d, S budget) => let '(d', ok) := bus_write d buf in ((d', budget), ok)
  end.

Definition readinto {D} `{T : Transport D} (s : D * nat) (n : nat)
  : (D * nat) * option (list byte) :=
  match s with
  | (d, O) => ((d, O), None)
  | (d, S budget) => let '(d', r) := bus_readinto d n in ((d', budget), r)
  end.

Definition transport {D} (T : Transport D) : Transport (D * nat) := {|
  bus_probe := fun a s =>
    let '(d', ok) := bus_probe a (fst s) in ((d', snd s), ok);
  bus_write := write;
  bus_readinto := readinto;
  bus_idle := fun s => (bus_idle (fst s), snd s)
|}.

(** A driver state in which [budget] more bus operations succeed. *)
Definition failing_after {D} (d : D) (budget : nat) : world (D * nat) :=
  World (d, budget) false [].

End Flaky.

(** ** Shapes of traces *)

(** The events of one register write and of one register read that ran to
    the end of its [with] block. *)
Definition write_txn (hdr payload : list byte) : list event :=
  [EvEnter; EvWrite (hdr ++ payload); EvExit].

Definition read_txn (hdr : list byte) (n : nat) : list event :=
  [EvEnter; EvWrite hdr; EvReadInto n; EvExit].

(** Every [EvEnter] of a trace is followed by its [EvExit] before the next
    [EvEnter] and before the end; [inside] tells whether a session is open. *)
Fixpoint sessions_closed (inside : bool) (evs : list event) : bool :=
  match evs with
  | [] => negb inside
  | EvEnter :: rest => negb inside && sessions_closed true rest
  | EvExit :: rest => inside && sessions_closed false rest
  | _ :: rest => sessions_closed inside rest
  end.

(** One poll of [data_ready] that ran to the end, and [k] unsuccessful
    polls, each followed by a sleep. *)
Definition poll_txn : list event :=
  read_txn [Byte.x00; Byte.x31] 1 ++ read_txn [Byte.x00; Byte.x30] 1.

Fixpoint idle_polls (k : nat) : list event :=
  match k with
  | O => []
  | S k' => poll_txn ++ EvSleep :: idle_polls k'
  end.

(** The events of a whole construction that went through with [k] polls
    that found no data. *)
Definition construction_txn (address : Z) (k : nat) : list event :=
  EvProbe address :: read_txn [Byte.x01; Byte.x0f] 3
  ++ write_txn [Byte.x00; Byte.x2d] init_block
  ++ write_txn [Byte.x00; Byte.x87] [Byte.x40]
  ++ idle_polls k ++ poll_txn
  ++ write_txn [Byte.x00; Byte.x86] [Byte.x01]
  ++ write_txn [Byte.x00; Byte.x87] [Byte.x00]
  ++ write_txn [Byte.x00; Byte.x08] [Byte.x09]
  ++ write_txn [Byte.x00; Byte.x0b] [Byte.x00].

(** Handing traced operations to the transport, one after the other: the
    device afterwards, and whether every operation went through.  The
    first operation that fails is the last one handed over. *)
Definition replay_event {D} `{T : Transport D} (ev : event) (d : D)
  : D * bool :=
  match ev with
  | EvProbe address => bus_probe address d
  | EvWrite buf => bus_write d buf
  | EvReadInto n =>
      let '(d', r) := bus_readinto d n in
      (d', match r with Some _ => true | None => false end)
  | EvSleep => (bus_idle d, true)
  | EvEnter | EvExit => (d, true)
  end.

Fixpoint replay {D} `{T : Transport D} (evs : list event) (d : D)
  : D * bool :=
  match evs with
  | [] => (d, true)
  | ev :: rest =>
      let '(d', ok) := replay_event ev d in
      if ok then replay rest d' else (d', false)
  end.

(** [w'] is where the bus operations [evs], handed to the transport from
    [w] on, all went through, and the trace has grown by them. *)
Definition reaches {D} `{T : Transport D} (evs : list event)
  (w w' : world D) : Prop :=
  replay evs (dev w) = (dev w', true) /\ trace w' = trace w ++ evs.

(** An outcome that is a result or an [OSError] from the transport. *)
Definition result_or_bus_error {A} (o : outcome A) : Prop :=
  match o with
  | Ok _ | Raise OSError => True
  | _ => False
  end.

(** The same, or a poll loop that has not finished within its fuel. *)
Definition result_bus_error_or_polling {A} (o : outcome A) : Prop :=
  match o with
  | Ok _ | Raise OSError | NoFuel => True
  | _ => False
  end.

(** Called with the session free, [m] leaves it free and closes in the
    trace every session it opened, whatever its outcome. *)
Definition keeps_session_free {D A} (m : M D A) : Prop :=
  forall w, held w = false ->
    held (snd (m w)) = false
    /\ exists evs, trace (snd (m w)) = trace w ++ evs
                   /\ sessions_closed false evs = true.

(** ** Facts about bytes and [struct] *)

Lemma to_Z_range (b : byte) : 0 <= to_Z b < 256.
Proof.
  unfold to_Z. pose proof (Byte.to_N_bounded b) as Hb. lia.
Qed.

Lemma of_Z_Some (z : Z) :
  0 <= z < 256 -> exists b, of_Z z = Some b /\ to_Z b = z.
Proof.
  intros Hz. unfold of_Z.
  replace ((0 <=? z) && (z <? 256)) with true
    by (symmetry; apply andb_true_intro; split; [apply Z.leb_le | apply Z.ltb_lt]; lia).
  destruct (Byte.of_N (Z.to_N z)) as [b|] eqn:Hb.
  - exists b. split; [reflexivity|].
    apply Byte.to_of_N in Hb. unfold to_Z. rewrite Hb. lia.
  - apply Byte.of_N_None_iff in Hb. lia.
Qed.

Lemma of_Z_to_Z (b : byte) : of_Z (to_Z b) = Some b.
Proof.
  destruct (of_Z_Some (to_Z b) (to_Z_range b)) as (b' & Hb & Heq).
  rewrite Hb. f_equal.
  unfold to_Z in Heq. apply N2Z.inj in Heq.
  pose proof (Byte.of_to_N b') as H1. pose proof (Byte.of_to_N b) as H2.
  rewrite Heq in H1. congruence.
Qed.

(** [struct.pack(">H", v)] gives the high byte, then the low byte. *)
Lemma pack_H_Some (v : Z) :
  0 <= v <= 0xFFFF ->
  exists hi lo, pack_H v = Some [hi; lo]
    /\ to_Z hi = v / 256 /\ to_Z lo = v mod 256.
Proof.
  intros Hv. unfold pack_H.
  replace ((0 <=? v) && (v <=? 0xFFFF)) with true
    by (symmetry; apply andb_true_intro; split; apply Z.leb_le; lia).
  assert (Hhi : Z.shiftr v 8 = v / 256)
    by (rewrite Z.shiftr_div_pow2 by lia; reflexivity).
  assert (Hlo : Z.land v 0xFF = v mod 256)
    by (change 0xFF with (Z.ones 8); rewrite Z.land_ones by lia; reflexivity).
  rewrite Hhi, Hlo.
  destruct (of_Z_Some (v / 256)) as (hi & Ehi & Hhi').
  { split; [apply Z.div_pos; lia | apply Z.div_lt_upper_bound; lia]. }
  destruct (of_Z_Some (v mod 256)) as (lo & Elo & Hlo').
  { apply Z.mod_pos_bound. lia. }
  exists hi, lo. rewrite Ehi, Elo. auto.
Qed.

Lemma pack_H_None (v : Z) : ~ 0 <= v <= 0xFFFF -> pack_H v = None.
Proof.
  intros Hv. unfold pack_H.
  destruct ((0 <=? v) && (v <=? 0xFFFF)) eqn:E; [|reflexivity].
  apply andb_prop in E as [E1 E2].
  apply Z.leb_le in E1. apply Z.leb_le in E2. lia.
Qed.

(** [struct.unpack(">H", [hi, lo])] is [hi * 256 + lo]. *)
Lemma unpack_H_value (hi lo : byte) :
  unpack_H [hi; lo] = Some (to_Z hi * 256 + to_Z lo).
Proof.
  unfold unpack_H. f_equal.
  pose proof (to_Z_range hi) as Hh. pose proof (to_Z_range lo) as Hl.
  rewrite Z.shiftl_mul_pow2 by lia. change (2 ^ 8) with 256.
  rewrite <- Z.lxor_lor, <- Z.add_nocarry_lxor; [reflexivity| |].
  all: apply Z.bits_inj'; intros n Hn; rewrite Z.land_spec, Z.bits_0.
  all: destruct (Z.lt_ge_cases n 8) as [Hlt|Hge].
  all: try (change 256 with (2 ^ 8); rewrite Z.mul_pow2_bits_low by lia;
            reflexivity).
  all: replace (to_Z lo) with (to_Z lo mod 2 ^ 8)
         by (apply Z.mod_small; change (2 ^ 8) with 256; lia).
  all: rewrite Z.mod_pow2_bits_high by lia; apply andb_false_r.
Qed.

(** A non-negative [stop] keeps the first [stop] elements. *)
Lemma slice_to_nonneg {A} (data : list A) (stop : Z) :
  0 <= stop -> slice_to data stop = firstn (Z.to_nat stop) data.
Proof.
  intros H. unfold slice_to.
  destruct (0 <=? stop) eqn:E; [reflexivity|].
  apply Z.leb_gt in E. lia.
Qed.

Lemma slice_to_all {A} (data : list A) :
  slice_to data (Z.of_nat (length data)) = data.
Proof.
  rewrite slice_to_nonneg by lia. rewrite Nat2Z.id. apply firstn_all.
Qed.

(** A negative [stop] drops that many elements from the end instead. *)
Lemma slice_to_negative {A} (data : list A) (stop : Z) :
  stop < 0 ->
  slice_to data stop = firstn (length data - Z.to_nat (- stop)) data.
Proof.
  intros H. unfold slice_to.
  destruct (0 <=? stop) eqn:E; [apply Z.leb_le in E; lia|].
  f_equal. lia.
Qed.

(** ** Sequencing *)

Lemma bind_Ok {D A B} (m : M D A) (k : A -> M D B) w b w' :
  bind m k w = (Ok b, w') ->
  exists a w1, m w = (Ok a, w1) /\ k a w1 = (Ok b, w').
Proof.
  unfold bind. destruct (m w) as [[a|e|] w1]; try discriminate. eauto.
Qed.

(** ** What one call of a primitive does *)

Section Primitives.

Context {D : Type} `{T : Transport D}.

Implicit Types (w : world D) (hdr data : list byte).

Lemma readinto_fill (n : nat) (bs : list byte) :
  length (take n bs ++ drop (length bs) (zeros n)) = n.
Proof.
  unfold zeros. rewrite length_app, length_take, length_drop, length_replicate.
  lia.
Qed.

(** A register write whose address packs: one session, one bus write of
    header and payload, and the transport decides the outcome. *)
Lemma write_registerN_run address data len w hdr :
  pack_H address = Some hdr ->
  _write_registerN address data len w =
    let payload :=
      slice_to data
        (match len with None => Z.of_nat (length data) | Some n => n end) in
    let '(d, ok) := bus_write (dev w) (hdr ++ payload) in
    (if ok then Ok tt else Raise OSError,
     World d false (trace w ++ write_txn hdr payload)).
Proof.
  intros Hp.
  unfold _write_registerN, with_i2c_device, enter, bind, lift, i2c_write,
    exit, emit, write_txn.
  rewrite Hp. cbn.
  destruct (bus_write _ _) as [d ok].
  destruct ok; cbn; rewrite <- !app_assoc; reflexivity.
Qed.

(** A register write whose address does not pack raises [struct.error]
    inside the session and issues no bus operation. *)
Lemma write_registerN_bad_address address data len w :
  pack_H address = None ->
  _write_registerN address data len w =
    (Raise StructError,
     World (dev w) false (trace w ++ [EvEnter; EvExit])).
Proof.
  intros Hp.
  unfold _write_registerN, with_i2c_device, enter, bind, lift, exit, emit.
  rewrite Hp. cbn. rewrite <- !app_assoc. reflexivity.
Qed.

(** A register read: the address phase, then the data phase if the
    address phase went through. *)
Lemma read_registerN_run address len w hdr :
  pack_H address = Some hdr -> 0 <= len ->
  _read_registerN address len w =
    let n := Z.to_nat len in
    let '(d1, ok) := bus_write (dev w) hdr in
    if ok then
      let '(d2, r) := bus_readinto d1 n in
      (match r with
       | Some bs => Ok (take n bs ++ drop (length bs) (zeros n))
       | None => Raise OSError
       end,
       World d2 false (trace w ++ read_txn hdr n))
    else
      (Raise OSError, World d1 false (trace w ++ [EvEnter; EvWrite hdr; EvExit])).
Proof.
  intros Hp Hlen.
  unfold _read_registerN, bytearray, with_i2c_device, enter, bind, lift,
    i2c_write, i2c_readinto, exit, emit, read_txn, ret.
  destruct (len <? 0) eqn:E; [apply Z.ltb_lt in E; lia|].
  rewrite Hp. cbn.
  destruct (bus_write _ _) as [d1 ok].
  destruct ok; cbn.
  - unfold zeros. rewrite length_replicate.
    destruct (bus_readinto _ _) as [d2 r].
    destruct r; cbn; rewrite <- !app_assoc; reflexivity.
  - rewrite <- !app_assoc. reflexivity.
Qed.

Lemma read_registerN_bad_address address len w :
  pack_H address = None -> 0 <= len ->
  _read_registerN address len w =
    (Raise StructError,
     World (dev w) false (trace w ++ [EvEnter; EvExit])).
Proof.
  intros Hp Hlen.
  unfold _read_registerN, bytearray, with_i2c_device, enter, bind, lift,
    exit, emit, ret.
  destruct (len <? 0) eqn:E; [apply Z.ltb_lt in E; lia|].
  rewrite Hp. cbn. rewrite <- !app_assoc. reflexivity.
Qed.

(** [bytearray] of a negative count raises before any session opens. *)
Lemma read_registerN_negative address len w :
  len < 0 -> _read_registerN address len w = (Raise ValueError, w).
Proof.
  intros Hlen. unfold _read_registerN, bytearray, bind.
  destruct (len <? 0) eqn:E; [reflexivity|]. apply Z.ltb_ge in E. lia.
Qed.

(** A register read that returns has run one whole read transaction and
    hands back exactly as many bytes as were asked for. *)
Lemma read_registerN_Ok address len w buf w' :
  _read_registerN address len w = (Ok buf, w') ->
  exists hdr, pack_H address = Some hdr /\ 0 <= len
    /\ length buf = Z.to_nat len
    /\ held w' = false
    /\ trace w' = trace w ++ read_txn hdr (Z.to_nat len).
Proof.
  intros H.
  destruct (Z.lt_ge_cases len 0) as [Hneg|Hlen].
  { rewrite read_registerN_negative in H by assumption. discriminate. }
  destruct (pack_H address) as [hdr|] eqn:Hp.
  2:{ rewrite read_registerN_bad_address in H by assumption. discriminate. }
  rewrite (read_registerN_run _ _ _ hdr) in H by assumption.
  cbn zeta in H.
  destruct (bus_write _ _) as [d1 ok]. destruct ok; [|discriminate].
  destruct (bus_readinto _ _) as [d2 r]. destruct r; [|discriminate].
  injection H as <- <-.
  exists hdr. repeat split; try assumption; try reflexivity.
  apply readinto_fill.
Qed.

End Primitives.

(** ** Traces against the transport *)

Section ReplayFacts.

Context {D : Type} `{T : Transport D}.

Implicit Types (w : world D) (d : D) (hdr data : list byte).

Lemma replay_app_ok (e1 e2 : list event) d d1 :
  replay e1 d = (d1, true) -> replay (e1 ++ e2) d = replay e2 d1.
Proof.
  revert d. induction e1 as [|ev e1 IH]; intros d H; cbn in *.
  - injection H as ->. reflexivity.
  - destruct (replay_event ev d) as [d' [|]]; [auto | discriminate].
Qed.

Lemma replay_app_through (e1 e2 : list event) d :
  snd (replay (e1 ++ e2) d) = true -> snd (replay e1 d) = true.
Proof.
  revert d. induction e1 as [|ev e1 IH]; intros d H; cbn in *;
    [reflexivity|].
  destruct (replay_event ev d) as [d' [|]]; [auto | discriminate].
Qed.

(** Replaying a register write is the one bus write it holds. *)
Lemma replay_write_txn hdr data d :
  replay (write_txn hdr data) d = bus_write d (hdr ++ data).
Proof. cbn. destruct (bus_write d (hdr ++ data)) as [d' [|]]; reflexivity. Qed.

(** A register read that returns has handed its address write and its
    read to the transport, in that order, and both went through. *)
Lemma read_registerN_replay address len w buf w' :
  _read_registerN address len w = (Ok buf, w') ->
  exists hdr,
    pack_H address = Some hdr
    /\ replay (read_txn hdr (Z.to_nat len)) (dev w) = (dev w', true).
Proof.
  intros H.
  destruct (Z.lt_ge_cases len 0) as [Hneg|Hlen].
  { rewrite read_registerN_negative in H by assumption. discriminate. }
  destruct (pack_H address) as [hdr|] eqn:Hp.
  2:{ rewrite read_registerN_bad_address in H by assumption. discriminate. }
  rewrite (read_registerN_run _ _ _ hdr) in H by assumption.
  cbn zeta in H. exists hdr. split; [reflexivity|]. cbn.
  destruct (bus_write _ _) as [d1 [|]]; [|discriminate].
  destruct (bus_readinto _ _) as [d2 [bs|]]; [|discriminate].
  injection H as <- <-. reflexivity.
Qed.

Lemma reaches_app (e1 e2 : list event) w w1 w2 :
  reaches e1 w w1 -> reaches e2 w1 w2 -> reaches (e1 ++ e2) w w2.
Proof.
  intros [R1 T1] [R2 T2]. split.
  - rewrite (replay_app_ok _ _ _ _ R1). exact R2.
  - rewrite T2, T1. symmetry. apply app_assoc.
Qed.

Lemma reaches_world (evs : list event) w w' :
  reaches evs w w' -> held w' = false ->
  w' = World (fst (replay evs (dev w))) false (trace w ++ evs).
Proof.
  intros [R Tr] Hheld. destruct w' as [d h t]. cbn in *.
  rewrite R. cbn. congruence.
Qed.

(** A register write whose bus write goes through returns. *)
Lemma write_registerN_through address data hdr (rest : list event) w :
  pack_H address = Some hdr ->
  snd (replay (write_txn hdr data ++ rest) (dev w)) = true ->
  exists w1,
    _write_registerN address data None w = (Ok tt, w1)
    /\ held w1 = false
    /\ reaches (write_txn hdr data) w w1.
Proof.
  intros Hp Hrun. apply replay_app_through in Hrun.
  rewrite replay_write_txn in Hrun.
  rewrite (write_registerN_run _ _ _ _ _ Hp). cbn zeta. rewrite slice_to_all.
  unfold reaches. rewrite replay_write_txn.
  destruct (bus_write _ _) as [d ok]. cbn in Hrun. subst ok.
  eexists. split; [reflexivity|]. cbn. auto.
Qed.

End ReplayFacts.

(** ** The register transaction primitives *)

Section PrimitiveClaims.

Context {D : Type} `{T : Transport D}.

Implicit Types (w : world D) (data : list byte).

(** Whatever its arguments and whatever the transport does, a register
    write issues events that open and close one session. *)
Lemma write_registerN_events address data len w :
  exists evs,
    snd (_write_registerN address data len w)
      = World (dev (snd (_write_registerN address data len w))) false
          (trace w ++ evs)
    /\ sessions_closed false evs = true.
Proof.
  destruct (pack_H address) as [hdr|] eqn:Hp.
  - rewrite (write_registerN_run _ _ _ _ hdr Hp). cbn zeta.
    destruct (bus_write _ _) as [d ok]. cbn.
    eexists. split; reflexivity.
  - rewrite write_registerN_bad_address by assumption. cbn.
    eexists. split; reflexivity.
Qed.

Lemma read_registerN_events address len w :
  held w = false ->
  exists evs,
    snd (_read_registerN address len w)
      = World (dev (snd (_read_registerN address len w))) false
          (trace w ++ evs)
    /\ sessions_closed false evs = true.
Proof.
  intros Hfree.
  destruct (Z.lt_ge_cases len 0) as [Hneg|Hlen].
  { rewrite read_registerN_negative by assumption. cbn.
    exists []. rewrite app_nil_r. destruct w; cbn in *; subst; split; reflexivity. }
  destruct (pack_H address) as [hdr|] eqn:Hp.
  - rewrite (read_registerN_run _ _ _ hdr Hp Hlen). cbn zeta.
    destruct (bus_write _ _) as [d1 ok]. destruct ok.
    + destruct (bus_readinto _ _) as [d2 r]. cbn.
      eexists. split; reflexivity.
    + cbn. eexists. split; reflexivity.
  - rewrite read_registerN_bad_address by assumption. cbn.
    eexists. split; reflexivity.
Qed.

(** C8: called with the session free, the register write primitive and the
    register read primitive leave the session free again on every exit
    path -- normal return, [struct.error], or an [OSError] raised by the
    transport in the address phase or in the data phase -- and every
    session they opened is closed in the trace. *)
Theorem primitives_release_session w :
  held w = false ->
  (forall address data len,
     let w' := snd (_write_registerN address data len w) in
     held w' = false
     /\ exists evs, trace w' = trace w ++ evs
                    /\ sessions_closed false evs = true)
  /\ (forall address len,
     let w' := snd (_read_registerN address len w) in
     held w' = false
     /\ exists evs, trace w' = trace w ++ evs
                    /\ sessions_closed false evs = true).
Proof.
  intros Hfree. split.
  - intros address data len w'.
    destruct (write_registerN_events address data len w) as (evs & Hw & Hc).
    subst w'. rewrite Hw. cbn. eauto.
  - intros address len w'.
    destruct (read_registerN_events address len w Hfree) as (evs & Hw & Hc).
    subst w'. rewrite Hw. cbn. eauto.
Qed.

(** C10 (amended): for every address in 0..0xFFFF, every payload and
    every explicit length that is not negative, the register write
    primitive hands the transport, in one bus write inside one session, the
    two address bytes (high byte first) followed by the first [len] bytes
    of the payload and nothing more; without a length it hands over the
    address bytes followed by the whole payload.  The transport's answer to
    that write decides between returning and [OSError]. *)
Theorem write_registerN_transmits address data len w :
  0 <= address <= 0xFFFF -> 0 <= len ->
  exists hi lo,
    to_Z hi = address / 256 /\ to_Z lo = address mod 256
    /\ (let buf := [hi; lo] ++ firstn (Z.to_nat len) data in
        _write_registerN address data (Some len) w
        = (if snd (bus_write (dev w) buf) then Ok tt else Raise OSError,
           World (fst (bus_write (dev w) buf)) false
             (trace w ++ [EvEnter; EvWrite buf; EvExit])))
    /\ (let buf := [hi; lo] ++ data in
        _write_registerN address data None w
        = (if snd (bus_write (dev w) buf) then Ok tt else Raise OSError,
           World (fst (bus_write (dev w) buf)) false
             (trace w ++ [EvEnter; EvWrite buf; EvExit]))).
Proof.
  intros Haddr Hlen.
  destruct (pack_H_Some address Haddr) as (hi & lo & Hp & Hhi & Hlo).
  exists hi, lo. repeat split; try assumption.
  - rewrite (write_registerN_run _ _ _ _ _ Hp). cbn zeta.
    rewrite slice_to_nonneg by assumption.
    destruct (bus_write _ _) as [d ok]. reflexivity.
  - rewrite (write_registerN_run _ _ _ _ _ Hp). cbn zeta.
    rewrite slice_to_all.
    destruct (bus_write _ _) as [d ok]. reflexivity.
Qed.

(** With a negative length the slice [data[:len]] drops bytes from the end
    of the payload instead. *)
Lemma write_registerN_negative_length address data len w hdr :
  pack_H address = Some hdr -> len < 0 ->
  trace (snd (_write_registerN address data (Some len) w))
    = trace w
      ++ write_txn hdr (firstn (length data - Z.to_nat (- len)) data).
Proof.
  intros Hp Hlen.
  rewrite (write_registerN_run _ _ _ _ _ Hp). cbn zeta.
  rewrite slice_to_negative by assumption.
  destruct (bus_write _ _) as [d ok]. reflexivity.
Qed.

(** C7: from every driver state, [start_ranging] hands the transport one
    bus write, inside one session, of the address bytes 0x00 0x87 and the
    single byte 0x40; [stop_ranging] one of 0x00 0x87 and the byte 0x00;
    [clear_interrupt] one of 0x00 0x86 and the byte 0x01.  What is written
    does not depend on the state; the transport's answer to that write
    decides between returning and [OSError]. *)
Theorem control_operations_write w :
  start_ranging w
    = (if snd (bus_write (dev w) [Byte.x00; Byte.x87; Byte.x40])
       then Ok tt else Raise OSError,
       World (fst (bus_write (dev w) [Byte.x00; Byte.x87; Byte.x40])) false
         (trace w ++ [EvEnter; EvWrite [Byte.x00; Byte.x87; Byte.x40]; EvExit]))
  /\ stop_ranging w
    = (if snd (bus_write (dev w) [Byte.x00; Byte.x87; Byte.x00])
       then Ok tt else Raise OSError,
       World (fst (bus_write (dev w) [Byte.x00; Byte.x87; Byte.x00])) false
         (trace w ++ [EvEnter; EvWrite [Byte.x00; Byte.x87; Byte.x00]; EvExit]))
  /\ clear_interrupt w
    = (if snd (bus_write (dev w) [Byte.x00; Byte.x86; Byte.x01])
       then Ok tt else Raise OSError,
       World (fst (bus_write (dev w) [Byte.x00; Byte.x86; Byte.x01])) false
         (trace w ++ [EvEnter; EvWrite [Byte.x00; Byte.x86; Byte.x01]; EvExit])).
Proof.
  unfold start_ranging, stop_ranging, clear_interrupt.
  repeat split.
  all: erewrite write_registerN_run by reflexivity; cbn zeta.
  all: destruct (bus_write _ _) as [d ok]; reflexivity.
Qed.

End PrimitiveClaims.

(** ** Status and measurement reads *)

Lemma land_bit4 (m : Z) : Z.land m 0x10 = if Z.testbit m 4 then 0x10 else 0.
Proof.
  apply Z.bits_inj'. intros n Hn. rewrite Z.land_spec.
  destruct (Z.eq_dec n 4) as [->|Hne].
  - destruct (Z.testbit m 4); reflexivity.
  - change 0x10 with (2 ^ 4). rewrite Z.pow2_bits_false by lia.
    rewrite andb_false_r.
    destruct (Z.testbit m 4); [|symmetry; apply Z.bits_0].
    symmetry. apply Z.pow2_bits_false. lia.
Qed.

(** The polarity value the code computes with a shift and a second mask is
    decided by [mux & 0x10] alone. *)
Lemma polarity_value (m : Z) :
  (if Z.land (Z.shiftr (Z.land m 0x10) 4) 0x01 =? 0 then 1 else 0)
  = (if Z.land m 0x10 =? 0 then 1 else 0).
Proof. rewrite land_bit4. destruct (Z.testbit m 4); reflexivity. Qed.

(** ** Division by ten in binary64 *)

Lemma all_from_true (f : Z -> bool) (n : nat) :
  forall v, PyFloat.all_from n v f = true ->
  forall x, v <= x < v + Z.of_nat n -> f x = true.
Proof.
  induction n as [|n IH]; intros v H x Hx; [lia|].
  cbn [PyFloat.all_from] in H. apply andb_prop in H as [Hv Hrest].
  destruct (Z.eq_dec x v) as [->|Hne]; [exact Hv|].
  apply (IH (v + 1) Hrest). lia.
Qed.

Lemma div_eucl_pair (a b : Z) : Z.div_eucl a b = (a / b, a mod b).
Proof. unfold Z.div, Z.modulo. destruct (Z.div_eucl a b). reflexivity. Qed.

(** Dividing by 5 * 2 ** 50 is dividing the high part by 5. *)
Lemma div_eucl_5_2_50 (a : Z) :
  0 <= a ->
  Z.div_eucl a 5629499534213120
  = let '(q, r) := Z.div_eucl (Z.shiftr a 50) 5 in
    (q, Z.shiftl r 50 + Z.land a (Z.ones 50)).
Proof.
  intros Ha. rewrite !div_eucl_pair.
  rewrite Z.shiftr_div_pow2, Z.shiftl_mul_pow2, Z.land_ones by lia.
  change 5629499534213120 with (2 ^ 50 * 5).
  rewrite Z.div_div by lia. f_equal.
  rewrite Z.rem_mul_r by lia. ring.
Qed.

Lemma div10_core_eq (m1 e1 : Z) :
  0 <= m1 ->
  SFdiv_core_binary PyFloat.prec PyFloat.emax m1 e1 5629499534213120 (-49)
  = PyFloat.div10_core m1 e1.
Proof.
  intros Hm. unfold SFdiv_core_binary, PyFloat.div10_core. cbv zeta.
  rewrite div_eucl_5_2_50.
  - destruct (Z.div_eucl (Z.shiftr _ 50) 5). reflexivity.
  - destruct (_ - _ - _); try lia. apply Z.shiftl_nonneg. exact Hm.
Qed.

(** The division by ten computed the short way is the division. *)
Lemma truediv10_fast_eq (v : Z) :
  PyFloat.truediv v 10 = PyFloat.truediv10_fast v.
Proof.
  unfold PyFloat.truediv, PyFloat.truediv10_fast.
  change (PyFloat.of_int 10) with (S754_finite false 5629499534213120 (-49)).
  destruct (PyFloat.of_int v) as [s|s| |s m e]; try reflexivity.
  cbn [SFdiv]. rewrite div10_core_eq by lia. reflexivity.
Qed.

Lemma tenth_checked_all :
  PyFloat.all_from (256 * 256) 0 PyFloat.tenth_checked = true.
Proof. vm_compute. reflexivity. Qed.

(** For every raw value, [v / 10] is a finite float with these bounds. *)
Lemma truediv_10_value (v : Z) :
  0 <= v <= 65535 ->
  exists q,
    PyFloat.value (PyFloat.truediv v 10) = Some q
    /\ (Qabs (q * 10 - inject_Z v) <= inject_Z v * (1 # 2 ^ 53))%Q
    /\ (0 <= q)%Q /\ (q <= 6553.5)%Q
    /\ ((q == v # 10)%Q <-> v mod 5 = 0).
Proof.
  intros Hv.
  pose proof (all_from_true _ _ _ tenth_checked_all v ltac:(lia)) as H.
  unfold PyFloat.tenth_checked in H. rewrite <- truediv10_fast_eq in H.
  destruct (PyFloat.truediv v 10) as [[|]|[|]| |[|] m [|p|p]];
    try discriminate H.
  - apply Z.eqb_eq in H. subst v. exists 0%Q. split; [reflexivity|].
    repeat split; try discriminate; try reflexivity.
  - cbv zeta in H.
    apply andb_prop in H as [H Hex]. apply andb_prop in H as [Herr Hmax].
    apply Z.leb_le in Herr, Hmax.
    exists (Zpos m # 2 ^ p)%Q. split; [reflexivity|].
    split; [|split; [|split; [|split]]].
    + unfold Qle, Qabs, Qminus, Qplus, Qmult, Qopp, inject_Z.
      cbn [Qnum Qden]. rewrite !Pos.mul_1_r, !Z.mul_1_r, Pos2Z.inj_mul.
      replace (Z.pos m * 10 + - v * Z.pos (2 ^ p))
        with (Z.pos m * 10 - v * Z.pos (2 ^ p)) by ring.
      lia.
    + unfold Qle. cbn. lia.
    + unfold Qle. cbn [Qnum Qden]. lia.
    + unfold Qeq. cbn [Qnum Qden]. intros Heq.
      apply Z.eqb_eq. rewrite <- (Bool.eqb_prop _ _ Hex).
      apply Z.eqb_eq. exact Heq.
    + unfold Qeq. cbn [Qnum Qden]. intros Hmod.
      apply Z.eqb_eq in Hmod. rewrite <- (Bool.eqb_prop _ _ Hex) in Hmod.
      apply Z.eqb_eq. exact Hmod.
Qed.

Section StatusClaims.

Context {D : Type} `{T : Transport D}.

Implicit Types (w : world D).

Lemma interrupt_polarity_run w mux w1 :
  _read_registerN _GPIO_HV_MUX__CTRL 1 w = (Ok [mux], w1) ->
  _interrupt_polarity w
    = (Ok (if Z.land (to_Z mux) 0x10 =? 0 then 1 else 0), w1).
Proof.
  intros H. unfold _interrupt_polarity, bind. rewrite H. cbn.
  unfold ret. rewrite polarity_value. reflexivity.
Qed.

Lemma data_ready_run w status mux w1 w2 :
  _read_registerN _GPIO__TIO_HV_STATUS 1 w = (Ok [status], w1) ->
  _read_registerN _GPIO_HV_MUX__CTRL 1 w1 = (Ok [mux], w2) ->
  data_ready w
    = (Ok (Z.land (to_Z status) 0x01
           =? (if Z.land (to_Z mux) 0x10 =? 0 then 1 else 0)), w2).
Proof.
  intros Hs Hm. unfold data_ready, bind at 1. rewrite Hs. cbn.
  unfold bind at 1. rewrite (interrupt_polarity_run _ _ _ Hm).
  destruct (_ =? _); reflexivity.
Qed.

(** A one-byte register read that returns gives a one-byte buffer. *)
Lemma read_one_byte address w buf w' :
  _read_registerN address 1 w = (Ok buf, w') -> exists b, buf = [b].
Proof.
  intros H. apply read_registerN_Ok in H as (hdr & _ & _ & Hlen & _).
  destruct buf as [|b [|? ?]]; try discriminate. eauto.
Qed.

(** C3: for every status byte read from register 0x0031 and every mux byte
    read from register 0x0030, [data_ready] returns a verdict, and the
    verdict is true exactly when [status & 0x01] equals the polarity
    value, which is 0 when [mux & 0x10] is not 0 and 1 otherwise. *)
Theorem data_ready_iff w status mux w1 w2 :
  _read_registerN _GPIO__TIO_HV_STATUS 1 w = (Ok [status], w1) ->
  _read_registerN _GPIO_HV_MUX__CTRL 1 w1 = (Ok [mux], w2) ->
  let polarity_value := if Z.land (to_Z mux) 0x10 =? 0 then 1 else 0 in
  exists b,
    fst (data_ready w) = Ok b
    /\ (b = true <-> Z.land (to_Z status) 0x01 = polarity_value).
Proof.
  intros Hs Hm pv. rewrite (data_ready_run _ _ _ _ _ Hs Hm). cbn.
  eexists. split; [reflexivity|]. apply Z.eqb_eq.
Qed.

(** The status register is addressed first on every call, whatever the
    transport answers. *)
Lemma data_ready_status_first w :
  exists rest,
    trace (snd (data_ready w))
      = trace w ++ EvEnter :: EvWrite [Byte.x00; Byte.x31] :: rest.
Proof.
  unfold data_ready, bind at 1.
  rewrite (read_registerN_run _ _ _ [Byte.x00; Byte.x31]) by (reflexivity || lia).
  cbn zeta.
  destruct (bus_write _ _) as [d1 ok]. destruct ok.
  2:{ cbn. eexists. reflexivity. }
  destruct (bus_readinto _ _) as [d2 r]. destruct r as [bs|].
  2:{ cbn. eexists. reflexivity. }
  match goal with
  | |- context [bind ?m ?k ?w0] =>
      assert (Hgrow : exists rest, trace (snd (bind m k w0))
                                   = trace w0 ++ rest)
  end.
  { unfold bind at 1, index.
    destruct (_ !! _); cbn; [|exists []; apply eq_sym, app_nil_r].
    unfold bind at 1, _interrupt_polarity, bind at 1.
    rewrite (read_registerN_run _ _ _ [Byte.x00; Byte.x30])
      by (reflexivity || lia).
    cbn zeta.
    destruct (bus_write _ _) as [d3 ok3]. destruct ok3.
    2:{ cbn. eexists. reflexivity. }
    destruct (bus_readinto _ _) as [d4 r4]. destruct r4 as [bs4|].
    2:{ cbn. eexists. reflexivity. }
    unfold bind, index. destruct (_ !! _); cbn.
    - destruct (_ =? _); cbn; eexists; reflexivity.
    - eexists; reflexivity. }
  destruct Hgrow as (rest & ->). cbn.
  rewrite <- app_assoc. cbn. eexists. reflexivity.
Qed.

Lemma data_ready_events w status w1 mux w2 :
  _read_registerN _GPIO__TIO_HV_STATUS 1 w = (Ok status, w1) ->
  _read_registerN _GPIO_HV_MUX__CTRL 1 w1 = (Ok mux, w2) ->
  trace (snd (data_ready w)) = trace w ++ poll_txn.
Proof.
  intros Hs Hm. unfold poll_txn.
  destruct (read_one_byte _ _ _ _ Hs) as (s & ->).
  destruct (read_one_byte _ _ _ _ Hm) as (m & ->).
  rewrite (data_ready_run _ _ _ _ _ Hs Hm). cbn.
  apply read_registerN_Ok in Hs as (h1 & Hp1 & _ & _ & _ & Ht1).
  apply read_registerN_Ok in Hm as (h2 & Hp2 & _ & _ & _ & Ht2).
  injection Hp1 as <-. injection Hp2 as <-.
  rewrite Ht2, Ht1, <- app_assoc. reflexivity.
Qed.

(** A poll that returns a verdict has done both register reads. *)
Lemma data_ready_Ok w b w' :
  data_ready w = (Ok b, w') ->
  exists status w1 mux,
    _read_registerN _GPIO__TIO_HV_STATUS 1 w = (Ok status, w1)
    /\ _read_registerN _GPIO_HV_MUX__CTRL 1 w1 = (Ok mux, w').
Proof.
  unfold data_ready, bind at 1.
  destruct (_read_registerN _GPIO__TIO_HV_STATUS 1 w) as [[s| |] w1] eqn:Hs;
    try discriminate.
  unfold bind at 1, index. destruct (s !! _); [|discriminate]. cbn.
  unfold bind at 1, _interrupt_polarity, bind at 1.
  destruct (_read_registerN _GPIO_HV_MUX__CTRL 1 w1) as [[m| |] w2] eqn:Hm;
    try discriminate.
  unfold bind, index. destruct (m !! _); [|discriminate]. cbn.
  destruct (_ =? _); intros [= <- <-]; eauto.
Qed.

Lemma data_ready_Ok_trace w b w' :
  data_ready w = (Ok b, w') -> trace w' = trace w ++ poll_txn.
Proof.
  intros H. destruct (data_ready_Ok _ _ _ H) as (s & w1 & m & Hs & Hm).
  rewrite <- (data_ready_events _ _ _ _ _ Hs Hm), H. reflexivity.
Qed.

(** C4 (amended): a call of [data_ready] whose two register reads return
    issues exactly two read transactions, the status register 0x0031 first
    and the interrupt polarity register 0x0030 second. *)
Theorem data_ready_reads_status_then_polarity w status w1 mux w2 :
  _read_registerN _GPIO__TIO_HV_STATUS 1 w = (Ok status, w1) ->
  _read_registerN _GPIO_HV_MUX__CTRL 1 w1 = (Ok mux, w2) ->
  trace (snd (data_ready w))
    = trace w ++ read_txn [Byte.x00; Byte.x31] 1
              ++ read_txn [Byte.x00; Byte.x30] 1.
Proof. exact (data_ready_events w status w1 mux w2). Qed.

(** C5 (amended): for every two bytes read from register 0x0096, holding
    the big-endian unsigned 16-bit integer [v], [distance] returns the float
    [v / 10] of Python's true division: the binary64 number got by rounding
    [v / 10], off by a relative error of at most 2 ** -53 and never
    truncated to an integer.  It is exactly [v / 10] when [v] is a multiple
    of 5 and only then; the bytes 0x00 0x64 give 10.0 and the bytes
    0x03 0xE8 give 100.0. *)
Theorem distance_is_float_tenth_of_raw w hi lo w1 :
  _read_registerN _VL53L1X_RESULT__FINAL_CROSSTALK_CORRECTED_RANGE_MM_SD0 2 w
    = (Ok [hi; lo], w1) ->
  let v := to_Z hi * 256 + to_Z lo in
  distance w = (Ok (PyFloat.truediv v 10), w1)
  /\ (exists q,
        PyFloat.value (PyFloat.truediv v 10) = Some q
        /\ (Qabs (q * 10 - inject_Z v) <= inject_Z v * (1 # 2 ^ 53))%Q
        /\ ((q == v # 10)%Q <-> v mod 5 = 0))
  /\ (hi = Byte.x00 -> lo = Byte.x64 ->
      PyFloat.truediv v 10 = PyFloat.of_int 10)
  /\ (hi = Byte.x03 -> lo = Byte.xe8 ->
      PyFloat.truediv v 10 = PyFloat.of_int 100).
Proof.
  intros H v. split; [|split; [|split]].
  - unfold distance, bind at 1. rewrite H. cbn -[unpack_H PyFloat.truediv].
    unfold bind. rewrite unpack_H_value. reflexivity.
  - pose proof (to_Z_range hi). pose proof (to_Z_range lo).
    destruct (truediv_10_value v ltac:(lia)) as (q & Hq & Herr & _ & _ & Hex).
    eauto.
  - intros -> ->. reflexivity.
  - intros -> ->. reflexivity.
Qed.

End StatusClaims.

(** ** Traces only grow *)

Section Growth.

Context {D : Type} `{T : Transport D}.

Lemma grows_ret {A} (a : A) : grows (ret (D := D) a).
Proof. intros w. exists []. symmetry. apply app_nil_r. Qed.

Lemma grows_raise {A} (e : exn) : grows (raise (D := D) (A := A) e).
Proof. intros w. exists []. symmetry. apply app_nil_r. Qed.

Lemma grows_lift {A} (e : exn) (o : option A) : grows (lift (D := D) e o).
Proof. destruct o; [apply grows_ret | apply grows_raise]. Qed.

Lemma grows_bind {A B} (m : M D A) (k : A -> M D B) :
  grows m -> (forall a, grows (k a)) -> grows (bind m k).
Proof.
  intros Hm Hk w. unfold bind.
  destruct (Hm w) as (e1 & He1).
  destruct (m w) as [[a|e|] w1]; cbn in *; eauto.
  destruct (Hk a w1) as (e2 & He2).
  exists (e1 ++ e2). rewrite He2, He1. symmetry. apply app_assoc.
Qed.

Lemma grows_index buf i : grows (index (D := D) buf i).
Proof. unfold index. destruct (_ !! _); [apply grows_ret | apply grows_raise]. Qed.

Lemma grows_sleep : grows sleep.
Proof. intros w. eexists. reflexivity. Qed.

Lemma grows_write_registerN address data len :
  grows (_write_registerN address data len).
Proof.
  intros w. destruct (write_registerN_events address data len w) as (evs & -> & _).
  eauto.
Qed.

Lemma grows_read_registerN address len : grows (_read_registerN address len).
Proof.
  intros w. destruct (Z.lt_ge_cases len 0) as [Hneg|Hlen].
  { rewrite read_registerN_negative by assumption. exists [].
    symmetry. apply app_nil_r. }
  destruct (pack_H address) as [hdr|] eqn:Hp.
  - rewrite (read_registerN_run _ _ _ hdr Hp Hlen). cbn zeta.
    destruct (bus_write _ _) as [d1 [|]]; [|eexists; reflexivity].
    destruct (bus_readinto _ _) as [d2 r]. eexists; reflexivity.
  - rewrite read_registerN_bad_address by assumption. eexists; reflexivity.
Qed.

Create HintDb grows.

#[local] Hint Resolve grows_ret grows_raise grows_lift grows_index grows_sleep
  grows_write_registerN grows_read_registerN : grows.
#[local] Hint Extern 2 (grows (bind _ _)) =>
  apply grows_bind; [|intros ?] : grows.
#[local] Hint Extern 2 (grows (if ?b then _ else _)) => destruct b : grows.

Lemma grows_data_ready : grows data_ready.
Proof. unfold data_ready, _interrupt_polarity. auto 10 with grows. Qed.

Lemma grows_wait_data_ready fuel : grows (wait_data_ready fuel).
Proof.
  induction fuel as [|fuel IH]; cbn.
  - intros w. exists []. symmetry. apply app_nil_r.
  - pose proof grows_data_ready. auto 10 with grows.
Qed.

Lemma grows_control :
  grows start_ranging /\ grows stop_ranging /\ grows clear_interrupt.
Proof. repeat split; apply grows_write_registerN. Qed.

Lemma grows_after_first {A B} (m : M D A) (k : A -> M D B) w evs :
  trace (snd (m w)) = trace w ++ evs ->
  (forall a, grows (k a)) ->
  exists rest, trace (snd (bind m k w)) = trace w ++ evs ++ rest.
Proof.
  intros Hm Hk. unfold bind.
  destruct (m w) as [[a|e|] w1]; cbn in *.
  - destruct (Hk a w1) as (rest & ->). exists rest.
    rewrite Hm. symmetry. apply app_assoc.
  - exists []. rewrite app_nil_r. assumption.
  - exists []. rewrite app_nil_r. assumption.
Qed.

End Growth.

(** Split a sequence of driver steps into its steps. *)
Ltac grows_step :=
  lazymatch goal with
  | |- grows (bind _ _) => apply grows_bind; [|intros ?]
  end.

(** ** Construction *)

Lemma init_seq_block : init_seq = Some init_block.
Proof. reflexivity. Qed.

Section ConstructionClaims.

Context {D : Type} `{T : Transport D}.

Implicit Types (w : world D).

Lemma I2CDevice_Ok address w w0 :
  I2CDevice address w = (Ok tt, w0) ->
  trace w0 = trace w ++ [EvProbe address] /\ held w0 = held w.
Proof.
  unfold I2CDevice. destruct (bus_probe _ _) as [d [|]]; [|discriminate].
  intros [= <-]. split; reflexivity.
Qed.

Lemma model_info_Ok w ids w1 :
  model_info w = (Ok ids, w1) ->
  held w1 = false
  /\ trace w1 = trace w ++ read_txn [Byte.x01; Byte.x0f] 3.
Proof.
  unfold model_info, bind at 1.
  destruct (_read_registerN _ 3 w) as [[info| |] w'] eqn:Hr; try discriminate.
  apply read_registerN_Ok in Hr as (hdr & Hp & _ & _ & Hheld & Htr).
  injection Hp as <-.
  unfold bind, index.
  destruct (info !! 0%nat); [|discriminate].
  destruct (info !! 1%nat); [|discriminate].
  destruct (info !! 2%nat); [|discriminate].
  intros [= <- <-]. auto.
Qed.

(** The first thing [_sensor_init] does, whatever happens afterwards, is
    the register write of the whole init block at address 0x002D. *)
Lemma sensor_init_first_write fuel w :
  exists rest,
    trace (snd (_sensor_init fuel w))
      = trace w ++ write_txn [Byte.x00; Byte.x2d] init_block ++ rest.
Proof.
  unfold _sensor_init. rewrite init_seq_block.
  unfold bind at 1, lift, ret.
  apply grows_after_first.
  - erewrite write_registerN_run by reflexivity. cbn zeta.
    rewrite slice_to_all. destruct (bus_write _ _) as [d ok]. reflexivity.
  - intros _.
    pose proof grows_control as (Hs & Hp & Hc).
    repeat grows_step;
      auto using grows_wait_data_ready, grows_write_registerN.
Qed.

(** C2: when the identity triple read at construction differs from
    (0xEA, 0xCC, 0x10) in at least one byte, construction raises the
    identity-mismatch error straight after the identity read: the only bus
    write it has issued is the address phase of that read, so no register
    write, and in particular no init-block write, has gone out. *)
Theorem wrong_identity_fails address fuel w w0 ids w1 :
  I2CDevice address w = (Ok tt, w0) ->
  model_info w0 = (Ok ids, w1) ->
  ids <> (0xEA, 0xCC, 0x10) ->
  __init__ address fuel w
    = (Raise (RuntimeError "Wrong sensor ID or type!"), w1)
  /\ trace w1
     = trace w ++ EvProbe address :: read_txn [Byte.x01; Byte.x0f] 3
  /\ (forall buf,
        In (EvWrite buf) (EvProbe address :: read_txn [Byte.x01; Byte.x0f] 3) ->
        buf = [Byte.x01; Byte.x0f]).
Proof.
  intros Hdev Hinfo Hne. split; [|split].
  - unfold __init__, bind. rewrite Hdev, Hinfo.
    destruct ids as [[model_id module_type] mask_rev].
    destruct (model_id =? 0xEA) eqn:E1; [|reflexivity].
    destruct (module_type =? 0xCC) eqn:E2; [|reflexivity].
    destruct (mask_rev =? 0x10) eqn:E3; [|reflexivity].
    apply Z.eqb_eq in E1, E2, E3. subst. contradiction.
  - apply I2CDevice_Ok in Hdev as (Ht0 & _).
    apply model_info_Ok in Hinfo as (_ & Ht1).
    rewrite Ht1, Ht0, <- app_assoc. reflexivity.
  - cbn. intros buf [H|[H|[H|[H|[H|[]]]]]]; try discriminate.
    congruence.
Qed.

(** On a bus that acknowledges every write, a register write returns. *)
Lemma write_registerN_acked address data w hdr :
  (forall d buf, snd (bus_write d buf) = true) ->
  pack_H address = Some hdr ->
  _write_registerN address data None w
    = (Ok tt,
       World (fst (bus_write (dev w) (hdr ++ data))) false
         (trace w ++ write_txn hdr data)).
Proof.
  intros Hack Hp. rewrite (write_registerN_run _ _ _ _ _ Hp). cbn zeta.
  rewrite slice_to_all. specialize (Hack (dev w) (hdr ++ data)).
  destruct (bus_write _ _) as [d ok]. cbn in *. subst. reflexivity.
Qed.

(** The poll loop returns as soon as the sensor is ready, given fuel for
    the polls it takes, having issued those polls and nothing else. *)
Lemma wait_data_ready_Ok k w w' :
  ready_after k w w' ->
  forall fuel, (k < fuel)%nat ->
  wait_data_ready fuel w = (Ok tt, w')
  /\ trace w' = trace w ++ idle_polls k ++ poll_txn.
Proof.
  induction 1 as [w w' Hr | k w w1 w' Hr Hk IH]; intros fuel Hfuel.
  - destruct fuel as [|fuel]; [lia|]. cbn. unfold bind. rewrite Hr.
    split; [reflexivity|]. apply (data_ready_Ok_trace _ _ _ Hr).
  - destruct fuel as [|fuel]; [lia|]. cbn. unfold bind at 1. rewrite Hr.
    unfold bind. destruct (sleep w1) as [r ws] eqn:Hs.
    assert (r = Ok tt) as -> by (unfold sleep in Hs; congruence).
    destruct (IH fuel ltac:(lia)) as (Hw & Ht). cbn in Hw, Ht.
    split; [exact Hw|].
    rewrite Ht. unfold sleep in Hs. injection Hs as <-. cbn.
    rewrite (data_ready_Ok_trace _ _ _ Hr), <- !app_assoc. reflexivity.
Qed.

End ConstructionClaims.

(** ** The loopback register file *)

Module LoopbackFacts.

Import Loopback.

Lemma store_lookup_below m a bs x :
  x < a -> store m a bs !! x = m !! x.
Proof.
  revert m a. induction bs as [|b bs IH]; intros m a Hx; cbn; [reflexivity|].
  rewrite IH by lia. apply lookup_insert_ne. lia.
Qed.

(** Which registers a block write touches, and with what. *)
Lemma store_lookup m a bs x :
  store m a bs !! x
  = if decide (a <= x < a + Z.of_nat (length bs))
    then bs !! Z.to_nat (x - a)
    else m !! x.
Proof.
  revert m a. induction bs as [|b bs IH]; intros m a; cbn [store length].
  - case_decide; [lia|reflexivity].
  - rewrite IH. repeat case_decide; try lia.
    + replace (Z.to_nat (x - a)) with (S (Z.to_nat (x - (a + 1)))) by lia.
      reflexivity.
    + assert (x = a) as -> by lia. rewrite Z.sub_diag. cbn.
      apply lookup_insert_eq.
    + apply lookup_insert_ne. lia.
Qed.

Lemma load_store m a bs : load (store m a bs) a (length bs) = bs.
Proof.
  revert m a. induction bs as [|b bs IH]; intros m a; cbn; [reflexivity|].
  rewrite IH, store_lookup_below by lia.
  rewrite lookup_insert_eq. reflexivity.
Qed.

Lemma length_load m a n : length (load m a n) = n.
Proof. revert a. induction n; intros a; cbn; congruence. Qed.

End LoopbackFacts.

Section ConstructionSequence.

Context {D : Type} `{T : Transport D}.

Implicit Types (w : world D).

(** C1 (amended): the init block is a constant of exactly 91 bytes; the
    initialization sequence begins by sending it in a single register
    write at register address 0x002D, and the block covers registers 0x2D
    through 0x87 inclusive -- on a register file, those and no others. *)
Theorem init_block_write fuel w :
  init_seq = Some init_block
  /\ length init_block = 91%nat
  /\ 0x2D + Z.of_nat (length init_block) - 1 = 0x87
  /\ (exists rest,
        trace (snd (_sensor_init fuel w))
          = trace w
            ++ [EvEnter; EvWrite ([Byte.x00; Byte.x2d] ++ init_block); EvExit]
            ++ rest)
  /\ (forall a,
        is_Some (Loopback.store ∅ 0x2D init_block !! a) <-> 0x2D <= a <= 0x87).
Proof.
  split; [reflexivity|]. split; [reflexivity|]. split; [reflexivity|].
  split; [apply sensor_init_first_write|].
  intros a. rewrite LoopbackFacts.store_lookup.
  change (Z.of_nat (length init_block)) with 91.
  case_decide as Ha.
  - split; [lia|]. intros _. apply lookup_lt_is_Some.
    change (length init_block) with 91%nat. lia.
  - rewrite lookup_empty. split; [intros [? ?]; discriminate | lia].
Qed.

Lemma I2CDevice_reaches address w w0 :
  I2CDevice address w = (Ok tt, w0) -> reaches [EvProbe address] w w0.
Proof.
  unfold I2CDevice, reaches. cbn.
  destruct (bus_probe _ _) as [d [|]]; [|discriminate].
  intros [= <-]. split; reflexivity.
Qed.

Lemma model_info_reaches w ids w1 :
  model_info w = (Ok ids, w1) ->
  reaches (read_txn [Byte.x01; Byte.x0f] 3) w w1.
Proof.
  intros H. split; [|apply (model_info_Ok _ _ _ H)].
  unfold model_info in H. apply bind_Ok in H as (info & w' & Hr & H).
  apply read_registerN_replay in Hr as (hdr & [= <-] & Hrep).
  unfold bind, index in H.
  destruct (info !! 0%nat); [|discriminate].
  destruct (info !! 1%nat); [|discriminate].
  destruct (info !! 2%nat); [|discriminate].
  injection H as _ <-. exact Hrep.
Qed.

Lemma data_ready_reaches w b w' :
  data_ready w = (Ok b, w') -> reaches poll_txn w w'.
Proof.
  intros H. split; [|apply (data_ready_Ok_trace _ _ _ H)].
  destruct (data_ready_Ok _ _ _ H) as (st & w1 & mux & Hs & Hm).
  apply read_registerN_replay in Hs as (h1 & [= <-] & R1).
  apply read_registerN_replay in Hm as (h2 & [= <-] & R2).
  unfold poll_txn. rewrite (replay_app_ok _ _ _ _ R1). exact R2.
Qed.

Lemma ready_after_reaches k w w' :
  ready_after k w w' -> reaches (idle_polls k ++ poll_txn) w w'.
Proof.
  induction 1 as [w w' Hr | k w w1 w' Hr Hk IH].
  - exact (data_ready_reaches _ _ _ Hr).
  - cbn [idle_polls]. rewrite <- app_assoc.
    apply (reaches_app _ _ _ _ _ (data_ready_reaches _ _ _ Hr)).
    destruct IH as [R Tr]. cbn in R, Tr. split.
    + cbn. exact R.
    + rewrite Tr, <- app_assoc. reflexivity.
Qed.

(** C6 (amended): when the identity triple read at construction is
    (0xEA, 0xCC, 0x10), every bus operation of the sequence below goes
    through and the sensor reports data ready at poll [k + 1],
    construction returns, given fuel for those polls.  After the probe and
    the identity read it has handed the transport exactly: the init-block
    write, the start-ranging write, [k] polls that found no data (each
    followed by a sleep) and the poll that found data, the clear-interrupt
    write, the stop-ranging write, the write of 0x09 to register 0x0008 and
    the write of 0x00 to register 0x000B, in this order. *)
Theorem construction_sequence address fuel k w w1 w3 :
  let boot := write_txn [Byte.x00; Byte.x2d] init_block
              ++ write_txn [Byte.x00; Byte.x87] [Byte.x40] in
  snd (replay (construction_txn address k) (dev w)) = true ->
  (I2CDevice address ;;; model_info) w = (Ok (0xEA, 0xCC, 0x10), w1) ->
  ready_after k
    (World (fst (replay boot (dev w1))) false (trace w1 ++ boot)) w3 ->
  (k < fuel)%nat ->
  __init__ address fuel w
  = (Ok tt,
     World (fst (replay (construction_txn address k) (dev w))) false
       (trace w ++ construction_txn address k)).
Proof.
  intros boot Hrun Hid Hready Hfuel. subst boot.
  apply bind_Ok in Hid as ([] & w0 & Hdev & Hinfo).
  pose proof (reaches_app _ _ _ _ _ (I2CDevice_reaches _ _ _ Hdev)
                (model_info_reaches _ _ _ Hinfo)) as R1.
  cbn [app] in R1.
  unfold construction_txn in Hrun.
  change (EvProbe address :: ?l ++ ?r) with ((EvProbe address :: l) ++ r)
    in Hrun.
  rewrite (replay_app_ok _ _ _ _ (proj1 R1)) in Hrun.
  (* the init-block write and the start-ranging write *)
  destruct (write_registerN_through 0x002D _ _ _ _ eq_refl Hrun)
    as (wa & Ea & _ & Ra).
  rewrite (replay_app_ok _ _ _ _ (proj1 Ra)) in Hrun.
  destruct (write_registerN_through _SYSTEM__MODE_START _ _ _ _ eq_refl Hrun)
    as (w2 & Eb & Hheld2 & Rb).
  rewrite (replay_app_ok _ _ _ _ (proj1 Rb)) in Hrun.
  pose proof (reaches_app _ _ _ _ _ Ra Rb) as Rboot.
  rewrite <- (reaches_world _ _ _ Rboot Hheld2) in Hready.
  (* the polls *)
  destruct (wait_data_ready_Ok _ _ _ Hready fuel Hfuel) as (Hwait & _).
  pose proof (ready_after_reaches _ _ _ Hready) as Rpoll.
  rewrite app_assoc in Hrun.
  rewrite (replay_app_ok _ _ _ _ (proj1 Rpoll)) in Hrun.
  (* the four closing writes *)
  destruct (write_registerN_through _SYSTEM__INTERRUPT_CLEAR _ _ _ _
              eq_refl Hrun) as (w4 & Ec & _ & Rc).
  rewrite (replay_app_ok _ _ _ _ (proj1 Rc)) in Hrun.
  destruct (write_registerN_through _SYSTEM__MODE_START _ _ _ _ eq_refl Hrun)
    as (w5 & Ed & _ & Rd).
  rewrite (replay_app_ok _ _ _ _ (proj1 Rd)) in Hrun.
  destruct (write_registerN_through
              _VL53L1X_VHV_CONFIG__TIMEOUT_MACROP_LOOP_BOUND _ _ _ _
              eq_refl Hrun) as (w6 & Ee & _ & Re).
  rewrite (replay_app_ok _ _ _ _ (proj1 Re)) in Hrun.
  rewrite <- (app_nil_r (write_txn [Byte.x00; Byte.x0b] _)) in Hrun.
  destruct (write_registerN_through 0x0B _ _ _ _ eq_refl Hrun)
    as (w7 & Ef & Hheld7 & Rf).
  (* the run *)
  assert (Hinit : __init__ address fuel w = (Ok tt, w7)).
  { unfold __init__, bind at 1. rewrite Hdev.
    unfold bind at 1. rewrite Hinfo. cbn [negb orb Z.eqb Pos.eqb].
    unfold _sensor_init. rewrite init_seq_block.
    unfold bind at 1, lift, ret. unfold bind at 1. rewrite Ea.
    unfold bind at 1, start_ranging. rewrite Eb.
    unfold bind at 1. rewrite Hwait.
    unfold bind at 1, clear_interrupt. rewrite Ec.
    unfold bind at 1, stop_ranging. rewrite Ed.
    unfold bind at 1. rewrite Ee. exact Ef. }
  rewrite Hinit. f_equal.
  apply reaches_world; [|exact Hheld7].
  pose proof (reaches_app _ _ _ _ _ R1
               (reaches_app _ _ _ _ _ Rboot
                 (reaches_app _ _ _ _ _ Rpoll
                   (reaches_app _ _ _ _ _ Rc
                     (reaches_app _ _ _ _ _ Rd
                       (reaches_app _ _ _ _ _ Re Rf)))))) as Rall.
  unfold construction_txn.
  repeat rewrite <- app_assoc in Rall. exact Rall.
Qed.

End ConstructionSequence.

(** ** Round trip through the loopback transport *)

Section RoundTrip.

Import Loopback.

#[local] Existing Instance Loopback.transport.

(** C9: over the loopback transport, for every 16-bit register address and
    every payload, writing the payload with the write primitive and then
    reading back as many bytes from the same address with the read
    primitive returns exactly the written bytes. *)
Theorem loopback_round_trip address payload (w : world regfile) :
  0 <= address <= 0xFFFF ->
  fst ((_write_registerN address payload None ;;;
        _read_registerN address (Z.of_nat (length payload))) w)
  = Ok payload.
Proof.
  intros Haddr.
  destruct (pack_H_Some address Haddr) as (hi & lo & Hp & Hhi & Hlo).
  assert (Ha : to_Z hi * 256 + to_Z lo = address).
  { rewrite Hhi, Hlo. pose proof (Z.div_mod address 256). lia. }
  unfold bind. rewrite (write_registerN_run _ _ _ _ _ Hp). cbn zeta.
  rewrite slice_to_all. cbn [bus_write transport write app].
  rewrite (read_registerN_run _ _ _ _ Hp) by lia. cbn zeta.
  cbn [bus_write bus_readinto transport write readinto dev cells pointer
       store length fst].
  rewrite Ha, Nat2Z.id, Z.add_0_r, LoopbackFacts.load_store.
  cbn [fst]. f_equal.
  rewrite firstn_all. unfold zeros.
  rewrite drop_ge by (rewrite length_replicate; lia).
  apply app_nil_r.
Qed.

End RoundTrip.

(** ** The claims on concrete devices *)

Lemma init_block_is_not_90_bytes :
  ~ exists block, init_seq = Some block /\ length block = 90%nat.
Proof.
  intros (block & Hb & Hlen). rewrite init_seq_block in Hb.
  injection Hb as <-. discriminate Hlen.
Qed.

(** On a register file the polarity register is not read first: the status
    register 0x31 is. *)
Lemma data_ready_not_polarity_first :
  trace (snd (data_ready (T := Loopback.transport)
                (World Loopback.blank false [])))
    = read_txn [Byte.x00; Byte.x31] 1 ++ read_txn [Byte.x00; Byte.x30] 1
  /\ trace (snd (data_ready (T := Loopback.transport)
                   (World Loopback.blank false [])))
    <> [] ++ read_txn [Byte.x00; Byte.x30] 1
          ++ read_txn [Byte.x00; Byte.x31] 1.
Proof. split; [reflexivity | discriminate]. Qed.

Lemma wrong_identity_fails_witness :
  fst (__init__ (T := Loopback.transport) 41 5 (World Loopback.blank false []))
  = Raise (RuntimeError "Wrong sensor ID or type!").
Proof.
  pose proof (wrong_identity_fails (T := Loopback.transport) 41 5
                (World Loopback.blank false []) _ (0, 0, 0) _
                eq_refl eq_refl ltac:(discriminate)) as [H _].
  rewrite H. reflexivity.
Defined.

(** Mux byte 0x10 and status byte 0x00: polarity value 0, masked status 0,
    data ready. *)
Lemma data_ready_iff_witness :
  fst (data_ready (T := Loopback.transport)
         (Loopback.holding 0x30 [Byte.x10; Byte.x00]))
  = Ok true.
Proof.
  destruct (data_ready_iff (T := Loopback.transport)
              (Loopback.holding 0x30 [Byte.x10; Byte.x00])
              Byte.x00 Byte.x10 _ _ eq_refl eq_refl) as (b & Hb & Hiff).
  rewrite Hb. f_equal. apply Hiff. reflexivity.
Defined.

Lemma data_ready_reads_status_then_polarity_witness :
  trace (snd (data_ready (T := Loopback.transport)
                (Loopback.holding 0x30 [Byte.x10; Byte.x00])))
  = [EvEnter; EvWrite [Byte.x00; Byte.x31]; EvReadInto 1; EvExit;
     EvEnter; EvWrite [Byte.x00; Byte.x30]; EvReadInto 1; EvExit].
Proof.
  exact (data_ready_reads_status_then_polarity (T := Loopback.transport)
           (Loopback.holding 0x30 [Byte.x10; Byte.x00])
           _ _ _ _ eq_refl eq_refl).
Defined.

(** The other two sample readings of the status check: mux 0x00 with
    status 0x01 is ready, mux 0x10 with status 0x01 is not. *)
Example data_ready_active_high :
  fst (data_ready (T := Loopback.transport)
         (Loopback.holding 0x30 [Byte.x00; Byte.x01]))
  = Ok true.
Proof. reflexivity. Qed.

Example data_ready_active_low_pending :
  fst (data_ready (T := Loopback.transport)
         (Loopback.holding 0x30 [Byte.x10; Byte.x01]))
  = Ok false.
Proof. reflexivity. Qed.

(** Raw bytes 0x00 0x64 are 100 mm, that is 10 cm. *)
Example distance_of_100_mm :
  fst (distance (T := Loopback.transport)
         (Loopback.holding 0x96 [Byte.x00; Byte.x64]))
  = Ok (PyFloat.of_int 10).
Proof. reflexivity. Qed.

(** Raw bytes 0x03 0xE8 are 1000 mm, that is 100 cm. *)
Lemma distance_is_float_tenth_of_raw_witness :
  fst (distance (T := Loopback.transport)
         (Loopback.holding 0x96 [Byte.x03; Byte.xe8]))
  = Ok (PyFloat.of_int 100).
Proof.
  destruct (distance_is_float_tenth_of_raw (T := Loopback.transport)
              (Loopback.holding 0x96 [Byte.x03; Byte.xe8])
              Byte.x03 Byte.xe8 _ eq_refl) as (Hd & _ & _ & H100).
  rewrite Hd. cbn [fst]. rewrite H100 by reflexivity. reflexivity.
Defined.

(** Raw bytes 0x00 0x01 are 1 mm: the float returned is the binary64
    number next to one tenth, which is not one tenth. *)
Lemma distance_of_1_mm_is_not_a_tenth :
  exists x q,
    fst (distance (T := Loopback.transport)
           (Loopback.holding 0x96 [Byte.x00; Byte.x01])) = Ok x
    /\ PyFloat.value x = Some q
    /\ q = (7205759403792794 # 72057594037927936)%Q
             (* in lowest terms 3602879701896397 / 36028797018963968 *)
    /\ ~ (q == 1 # 10)%Q.
Proof.
  exists (PyFloat.truediv 1 10), (7205759403792794 # 2 ^ 56)%Q.
  split; [reflexivity|]. split; [reflexivity|]. split.
  - reflexivity.
  - unfold Qeq. cbn. discriminate.
Qed.

(** The stand-in sensor has its data ready at the second poll. *)
Lemma sensor_ready_after_one_sleep :
  let w1 := snd ((I2CDevice (T := Sensor.transport) 41 ;;;
                  model_info (T := Sensor.transport)) Sensor.power_on) in
  let boot := write_txn [Byte.x00; Byte.x2d] init_block
              ++ write_txn [Byte.x00; Byte.x87] [Byte.x40] in
  exists w3,
    ready_after (T := Sensor.transport) 1
      (World (fst (replay (T := Sensor.transport) boot (dev w1))) false
         (trace w1 ++ boot))
      w3.
Proof.
  eexists. eapply ready_later; [|eapply ready_now].
  - vm_compute. reflexivity.
  - vm_compute. reflexivity.
Qed.

Lemma construction_sequence_witness :
  fst (__init__ (T := Sensor.transport) 41 5 Sensor.power_on) = Ok tt
  /\ dev (snd (__init__ (T := Sensor.transport) 41 5 Sensor.power_on))
     = fst (replay (T := Sensor.transport) (construction_txn 41 1)
              Sensor.fresh)
  /\ trace (snd (__init__ (T := Sensor.transport) 41 5 Sensor.power_on))
     = construction_txn 41 1.
Proof.
  destruct sensor_ready_after_one_sleep as (w3 & Hready).
  pose proof (construction_sequence (T := Sensor.transport) 41 5 1
                Sensor.power_on
                (snd ((I2CDevice (T := Sensor.transport) 41 ;;;
                       model_info (T := Sensor.transport)) Sensor.power_on))
                w3) as H.
  cbv zeta in H.
  rewrite (H ltac:(vm_compute; reflexivity) ltac:(vm_compute; reflexivity)
             Hready ltac:(lia)).
  repeat split.
Defined.

(** A chip with the right identity on a bus that fails at the init-block
    write: the identity read gives (0xEA, 0xCC, 0x10) and construction
    raises [OSError]. *)
Lemma matching_identity_construction_fails :
  fst ((I2CDevice (T := Flaky.transport Sensor.transport) 41 ;;;
        model_info (T := Flaky.transport Sensor.transport))
         (Flaky.failing_after Sensor.fresh 2))
    = Ok (0xEA, 0xCC, 0x10)
  /\ fst (__init__ (T := Flaky.transport Sensor.transport) 41 5
            (Flaky.failing_after Sensor.fresh 2))
    = Raise OSError.
Proof. split; vm_compute; reflexivity. Qed.

(** The address phase goes through and the data phase fails: the read
    raises [OSError] and the session is free again. *)
Lemma primitives_release_session_witness :
  fst (_read_registerN (T := Flaky.transport Loopback.transport) 0x0031 1
         (Flaky.failing_after Loopback.blank 1))
    = Raise OSError
  /\ held (snd (_read_registerN (T := Flaky.transport Loopback.transport)
                  0x0031 1 (Flaky.failing_after Loopback.blank 1))) = false.
Proof.
  split; [reflexivity|].
  exact (proj1 (proj2 (primitives_release_session
                         (T := Flaky.transport Loopback.transport)
                         (Flaky.failing_after Loopback.blank 1) eq_refl)
                  0x0031 1)).
Defined.

Lemma loopback_round_trip_witness :
  fst ((_write_registerN (T := Loopback.transport) 0x0096
          [Byte.x03; Byte.xe8] None ;;;
        _read_registerN (T := Loopback.transport) 0x0096 2)
         (World Loopback.blank false []))
  = Ok [Byte.x03; Byte.xe8].
Proof.
  apply (loopback_round_trip 0x0096 [Byte.x03; Byte.xe8]
           (World Loopback.blank false [])).
  lia.
Defined.

Lemma write_registerN_transmits_witness :
  exists hi lo,
    to_Z hi = 0 /\ to_Z lo = 0x87
    /\ fst (_write_registerN (T := Loopback.transport) 0x0087
              [Byte.x01; Byte.x02; Byte.x03] (Some 2)
              (World Loopback.blank false [])) = Ok tt
    /\ trace (snd (_write_registerN (T := Loopback.transport) 0x0087
                     [Byte.x01; Byte.x02; Byte.x03] (Some 2)
                     (World Loopback.blank false [])))
       = [EvEnter; EvWrite [hi; lo; Byte.x01; Byte.x02]; EvExit].
Proof.
  destruct (write_registerN_transmits (T := Loopback.transport) 0x0087
              [Byte.x01; Byte.x02; Byte.x03] 2 (World Loopback.blank false [])
              ltac:(lia) ltac:(lia)) as (hi & lo & Hhi & Hlo & Hlen & _).
  exists hi, lo. split; [exact Hhi|]. split; [exact Hlo|].
  cbv zeta in Hlen. rewrite Hlen. split; reflexivity.
Defined.

(** Length -1 sends two of the three payload bytes, not the first -1 of
    them; address 0x10000 sends nothing at all. *)
Lemma write_registerN_not_every_argument :
  trace (snd (_write_registerN (T := Loopback.transport) 0x0087
                [Byte.x01; Byte.x02; Byte.x03] (Some (-1))
                (World Loopback.blank false [])))
    = [EvEnter; EvWrite [Byte.x00; Byte.x87; Byte.x01; Byte.x02]; EvExit]
  /\ trace (snd (_write_registerN (T := Loopback.transport) 0x0087
                   [Byte.x01; Byte.x02; Byte.x03] (Some (-1))
                   (World Loopback.blank false [])))
    <> [EvEnter;
        EvWrite ([Byte.x00; Byte.x87]
                 ++ firstn (Z.to_nat (-1)) [Byte.x01; Byte.x02; Byte.x03]);
        EvExit]
  /\ _write_registerN (T := Loopback.transport) 0x10000
       [Byte.x01] (Some 1) (World Loopback.blank false [])
    = (Raise StructError, World Loopback.blank false [EvEnter; EvExit]).
Proof. split; [reflexivity|]. split; [discriminate | reflexivity]. Qed.

(** With length -1 the last payload byte is dropped. *)
Example write_registerN_length_minus_one :
  trace (snd (_write_registerN (T := Loopback.transport) 0x0087
                [Byte.x01; Byte.x02; Byte.x03] (Some (-1))
                (World Loopback.blank false [])))
  = [EvEnter; EvWrite [Byte.x00; Byte.x87; Byte.x01; Byte.x02]; EvExit].
Proof. reflexivity. Qed.

(** ** What the construction sequence depends on *)

Section Unready.

Import Loopback.

#[local] Existing Instance Loopback.transport.

(** On a register file holding the values the init block puts in the mux
    and status registers (0x01 and 0x02), a poll finds no data and leaves
    the registers as they are. *)
Lemma loopback_poll_finds_nothing (w : world regfile) :
  cells (dev w) !! 0x30 = Some Byte.x01 ->
  cells (dev w) !! 0x31 = Some Byte.x02 ->
  exists w', data_ready w = (Ok false, w') /\ cells (dev w') = cells (dev w).
Proof.
  intros Hmux Hstatus.
  unfold data_ready, bind at 1.
  rewrite (read_registerN_run _GPIO__TIO_HV_STATUS _ _ [Byte.x00; Byte.x31])
    by (reflexivity || lia).
  cbn [bus_write bus_readinto transport write readinto dev cells pointer
       store length fst snd app].
  change (to_Z Byte.x00 * 256 + to_Z Byte.x31 + Z.of_nat 0) with 0x31.
  change (Z.to_nat 1) with 1%nat. cbn [load]. rewrite Hstatus.
  unfold bind at 1. cbn [index take drop length zeros replicate app lookup
                         list_lookup default ret].
  unfold bind at 1, _interrupt_polarity, bind at 1.
  rewrite (read_registerN_run _GPIO_HV_MUX__CTRL _ _ [Byte.x00; Byte.x30])
    by (reflexivity || lia).
  cbn [bus_write bus_readinto transport write readinto dev cells pointer
       store length fst snd app].
  change (to_Z Byte.x00 * 256 + to_Z Byte.x30 + Z.of_nat 0) with 0x30.
  change (Z.to_nat 1) with 1%nat. cbn [load]. rewrite Hmux.
  eexists. split; reflexivity.
Qed.

(** There the poll loop never ends: no amount of fuel gets a result. *)
Lemma loopback_wait_never_returns fuel (w : world regfile) :
  cells (dev w) !! 0x30 = Some Byte.x01 ->
  cells (dev w) !! 0x31 = Some Byte.x02 ->
  fst (wait_data_ready fuel w) = NoFuel.
Proof.
  revert w. induction fuel as [|fuel IH]; intros w Hmux Hstatus;
    [reflexivity|].
  destruct (loopback_poll_finds_nothing w Hmux Hstatus) as (w' & Hr & Hc).
  cbn [wait_data_ready]. unfold bind at 1. rewrite Hr.
  unfold bind at 1, sleep. apply IH; cbn; rewrite Hc; assumption.
Qed.

End Unready.

(** A chip with the right identity whose bus fails after the identity
    read: construction raises [OSError] at the init-block write. *)
Example construction_bus_fault :
  __init__ (T := Flaky.transport Sensor.transport) 41 5
    (Flaky.failing_after Sensor.fresh 2)
  = (Raise OSError,
     World (Loopback.RegFile (Loopback.cells Sensor.fresh) 0x0112, O) false
       (EvProbe 41 :: read_txn [Byte.x01; Byte.x0f] 3
        ++ write_txn [Byte.x00; Byte.x2d] init_block)).
Proof. vm_compute. reflexivity. Qed.

Lemma loopback_acknowledges :
  forall d buf, snd (bus_write (Transport := Loopback.transport) d buf) = true.
Proof. intros d [|hi [|lo payload]]; reflexivity. Qed.

(** A chip with the right identity that never completes a measurement:
    construction keeps polling, whatever the fuel. *)
Lemma construction_never_returns fuel :
  fst (__init__ (T := Loopback.transport) 41 fuel Sensor.power_on) = NoFuel.
Proof.
  unfold __init__, bind at 1.
  destruct (I2CDevice 41 Sensor.power_on) as [r0 w0] eqn:H0.
  vm_compute in H0. injection H0 as <- <-.
  unfold bind at 1.
  match goal with
  | |- context [model_info ?w] =>
      destruct (model_info w) as [r1 w1] eqn:H1
  end.
  vm_compute in H1. injection H1 as <- <-.
  cbn [negb orb Z.eqb Pos.eqb].
  unfold _sensor_init. rewrite init_seq_block.
  unfold bind at 1, lift, ret. unfold bind at 1.
  rewrite (write_registerN_acked 0x002D _ _ [Byte.x00; Byte.x2d]
             loopback_acknowledges eq_refl).
  unfold bind at 1, start_ranging.
  rewrite (write_registerN_acked _SYSTEM__MODE_START _ _ [Byte.x00; Byte.x87]
             loopback_acknowledges eq_refl).
  unfold bind at 1.
  match goal with
  | |- context [wait_data_ready fuel ?w] =>
      pose proof (loopback_wait_never_returns fuel w) as Hwait;
      destruct (wait_data_ready fuel w) as [[[]| |] w3]
  end.
  - specialize (Hwait ltac:(vm_compute; reflexivity)
                      ltac:(vm_compute; reflexivity)).
    discriminate Hwait.
  - specialize (Hwait ltac:(vm_compute; reflexivity)
                      ltac:(vm_compute; reflexivity)).
    discriminate Hwait.
  - reflexivity.
Qed.

(** ** Further behaviour of the register primitives *)

Lemma pack_H_in_range (v : Z) (hdr : list byte) :
  pack_H v = Some hdr -> 0 <= v <= 0xFFFF.
Proof.
  intros H. destruct (Z_le_dec 0 v) as [H0|H0];
    [destruct (Z_le_dec v 0xFFFF) as [H1|H1]; [lia|]|];
    rewrite pack_H_None in H by lia; discriminate.
Qed.

Section PrimitiveEdges.

Context {D : Type} `{T : Transport D}.

Implicit Types (w : world D) (data buf : list byte).

(** X1: a register read that returns hands back exactly as many bytes as
    were asked for, was given a 16-bit address and a non-negative length,
    has issued one session holding the two address bytes (high byte first)
    and one read of that many bytes, and has left the session free. *)
Theorem read_registerN_returns address len w buf w' :
  _read_registerN address len w = (Ok buf, w') ->
  0 <= address <= 0xFFFF /\ 0 <= len
  /\ length buf = Z.to_nat len
  /\ held w' = false
  /\ exists hi lo,
       to_Z hi = address / 256 /\ to_Z lo = address mod 256
       /\ trace w'
          = trace w
            ++ [EvEnter; EvWrite [hi; lo]; EvReadInto (Z.to_nat len); EvExit].
Proof.
  intros H.
  apply read_registerN_Ok in H as (hdr & Hp & Hlen & Hbuf & Hheld & Htr).
  pose proof (pack_H_in_range _ _ Hp) as Hr.
  destruct (pack_H_Some _ Hr) as (hi & lo & Hp' & Hhi & Hlo).
  rewrite Hp in Hp'. injection Hp' as ->.
  repeat split; try assumption; try lia.
  exists hi, lo. auto.
Qed.

(** X2: an address outside 0..0xFFFF makes either primitive raise
    [struct.error] inside an otherwise empty session: nothing is sent to
    the device and the device is left as it was. *)
Theorem primitives_reject_wide_address address data len rlen w :
  ~ 0 <= address <= 0xFFFF -> 0 <= rlen ->
  _write_registerN address data len w
    = (Raise StructError, World (dev w) false (trace w ++ [EvEnter; EvExit]))
  /\ _read_registerN address rlen w
    = (Raise StructError, World (dev w) false (trace w ++ [EvEnter; EvExit])).
Proof.
  intros Haddr Hlen. pose proof (pack_H_None _ Haddr) as Hp. split.
  - apply write_registerN_bad_address. exact Hp.
  - apply read_registerN_bad_address; assumption.
Qed.

(** X3: a negative length makes the register read raise [ValueError]
    before it opens a session: the state, trace included, is unchanged,
    whatever the address. *)
Theorem read_registerN_rejects_negative_length address len w :
  len < 0 -> _read_registerN address len w = (Raise ValueError, w).
Proof.
  intros Hlen. unfold _read_registerN, bytearray, bind.
  destruct (len <? 0) eqn:E; [reflexivity|]. apply Z.ltb_ge in E. lia.
Qed.

(** X4: the explicit length of a register write follows [data[:length]]:
    a length of at least the payload size sends the whole payload without
    padding, length 0 sends the two address bytes alone, and a negative
    length drops that many bytes from the end of the payload. *)
Theorem write_registerN_length_edges address data w :
  0 <= address <= 0xFFFF ->
  exists hdr,
    pack_H address = Some hdr /\ length hdr = 2%nat
    /\ (forall len, Z.of_nat (length data) <= len ->
          trace (snd (_write_registerN address data (Some len) w))
          = trace w ++ [EvEnter; EvWrite (hdr ++ data); EvExit])
    /\ trace (snd (_write_registerN address data (Some 0) w))
       = trace w ++ [EvEnter; EvWrite hdr; EvExit]
    /\ (forall len, len < 0 ->
          trace (snd (_write_registerN address data (Some len) w))
          = trace w
            ++ [EvEnter;
                EvWrite (hdr ++ firstn (length data - Z.to_nat (- len)) data);
                EvExit]).
Proof.
  intros Haddr.
  destruct (pack_H_Some address Haddr) as (hi & lo & Hp & _ & _).
  exists [hi; lo]. split; [exact Hp|]. split; [reflexivity|].
  split; [|split].
  - intros len Hlen. rewrite (write_registerN_run _ _ _ _ _ Hp). cbn zeta.
    rewrite slice_to_nonneg by lia. rewrite firstn_all2 by lia.
    destruct (bus_write _ _) as [d ok]. reflexivity.
  - rewrite (write_registerN_run _ _ _ _ _ Hp). cbn zeta.
    rewrite slice_to_nonneg by lia. cbn [Z.to_nat firstn].
    destruct (bus_write _ _) as [d ok]. reflexivity.
  - intros len Hlen. rewrite (write_registerN_run _ _ _ _ _ Hp). cbn zeta.
    rewrite slice_to_negative by assumption.
    destruct (bus_write _ _) as [d ok]. reflexivity.
Qed.

(** X5: when the transport fails in the address phase of a register read,
    the read raises [OSError] at once: the data phase is never attempted,
    and the session is closed and free. *)
Theorem read_registerN_address_phase_failure address len w hdr d1 :
  pack_H address = Some hdr -> 0 <= len ->
  bus_write (dev w) hdr = (d1, false) ->
  _read_registerN address len w
    = (Raise OSError,
       World d1 false (trace w ++ [EvEnter; EvWrite hdr; EvExit])).
Proof.
  intros Hp Hlen Hfail.
  rewrite (read_registerN_run _ _ _ _ Hp Hlen). cbn zeta.
  rewrite Hfail. reflexivity.
Qed.

End PrimitiveEdges.

(** ** Further behaviour of the read-only properties *)

Lemma land_1_testbit (z : Z) : Z.land z 1 = Z.b2z (Z.testbit z 0).
Proof.
  change 1 with (Z.ones 1). rewrite Z.land_ones by lia.
  change (2 ^ 1) with 2. symmetry. apply Z.bit0_mod.
Qed.

Section ReadOutcomes.

Context {D : Type} `{T : Transport D}.

Implicit Types (w : world D) (buf : list byte).

(** A register read at a fixed valid address and length either returns a
    buffer of that length or raises [OSError]. *)
Lemma read_registerN_outcome address len w hdr :
  pack_H address = Some hdr -> 0 <= len ->
  (exists buf w', _read_registerN address len w = (Ok buf, w')
                  /\ length buf = Z.to_nat len)
  \/ fst (_read_registerN address len w) = Raise OSError.
Proof.
  intros Hp Hlen. rewrite (read_registerN_run _ _ _ _ Hp Hlen). cbn zeta.
  destruct (bus_write _ _) as [d1 [|]]; [|right; reflexivity].
  destruct (bus_readinto _ _) as [d2 [bs|]]; [|right; reflexivity].
  left. eexists _, _. split; [reflexivity|]. apply readinto_fill.
Qed.

Lemma write_registerN_outcome address data len w hdr :
  pack_H address = Some hdr ->
  result_or_bus_error (fst (_write_registerN address data len w)).
Proof.
  intros Hp. rewrite (write_registerN_run _ _ _ _ _ Hp). cbn zeta.
  destruct (bus_write _ _) as [d [|]]; exact I.
Qed.

(** X6: when the identity read returns, [model_info] returns the three
    bytes it read, in register order (model ID, module type, mask
    revision), each as an integer in 0..255, in the state the read left. *)
Theorem model_info_returns w buf w' :
  _read_registerN _VL53L1X_IDENTIFICATION__MODEL_ID 3 w = (Ok buf, w') ->
  exists b0 b1 b2,
    buf = [b0; b1; b2]
    /\ model_info w = (Ok (to_Z b0, to_Z b1, to_Z b2), w')
    /\ 0 <= to_Z b0 < 256 /\ 0 <= to_Z b1 < 256 /\ 0 <= to_Z b2 < 256.
Proof.
  intros H.
  pose proof (read_registerN_Ok _ _ _ _ _ H) as (_ & _ & _ & Hlen & _).
  destruct buf as [|b0 [|b1 [|b2 [|? ?]]]]; try discriminate Hlen.
  exists b0, b1, b2. split; [reflexivity|].
  split; [|auto using to_Z_range].
  unfold model_info, bind. rewrite H. reflexivity.
Qed.

Lemma model_info_outcome w : result_or_bus_error (fst (model_info w)).
Proof.
  unfold model_info, bind at 1.
  destruct (read_registerN_outcome _VL53L1X_IDENTIFICATION__MODEL_ID 3 w
              [Byte.x01; Byte.x0f] eq_refl ltac:(lia))
    as [(buf & w' & Hr & Hlen)|Hr].
  - rewrite Hr.
    destruct buf as [|b0 [|b1 [|b2 [|? ?]]]]; try discriminate Hlen.
    exact I.
  - destruct (_read_registerN _ _ _) as [[?| |] ?]; cbn in Hr;
      try discriminate. injection Hr as ->. exact I.
Qed.

Lemma distance_outcome w : result_or_bus_error (fst (distance w)).
Proof.
  unfold distance, bind at 1.
  destruct (read_registerN_outcome
              _VL53L1X_RESULT__FINAL_CROSSTALK_CORRECTED_RANGE_MM_SD0 2 w
              [Byte.x00; Byte.x96] eq_refl ltac:(lia))
    as [(buf & w' & Hr & Hlen)|Hr].
  - rewrite Hr.
    destruct buf as [|b0 [|b1 [|? ?]]]; try discriminate Hlen.
    exact I.
  - destruct (_read_registerN _ _ _) as [[?| |] ?]; cbn in Hr;
      try discriminate. injection Hr as ->. exact I.
Qed.

Lemma interrupt_polarity_outcome w :
  result_or_bus_error (fst (_interrupt_polarity w)).
Proof.
  unfold _interrupt_polarity, bind at 1.
  destruct (read_registerN_outcome _GPIO_HV_MUX__CTRL 1 w
              [Byte.x00; Byte.x30] eq_refl ltac:(lia))
    as [(buf & w' & Hr & Hlen)|Hr].
  - rewrite Hr. destruct buf as [|b0 [|? ?]]; try discriminate Hlen.
    exact I.
  - destruct (_read_registerN _ _ _) as [[?| |] ?]; cbn in Hr;
      try discriminate. injection Hr as ->. exact I.
Qed.

Lemma data_ready_outcome w : result_or_bus_error (fst (data_ready w)).
Proof.
  unfold data_ready, bind at 1.
  destruct (read_registerN_outcome _GPIO__TIO_HV_STATUS 1 w
              [Byte.x00; Byte.x31] eq_refl ltac:(lia))
    as [(buf & w' & Hr & Hlen)|Hr].
  - rewrite Hr. destruct buf as [|b0 [|? ?]]; try discriminate Hlen.
    unfold bind at 1. cbn [index lookup list_lookup ret].
    unfold bind at 1.
    pose proof (interrupt_polarity_outcome w') as Hp.
    destruct (_interrupt_polarity w') as [[pol|[]|] w2]; cbn in Hp;
      try contradiction; try exact I.
    destruct (_ =? _); exact I.
  - destruct (_read_registerN _ _ _) as [[?| |] ?]; cbn in Hr;
      try discriminate. injection Hr as ->. exact I.
Qed.

(** X7: the read-only properties and the control operations either return
    or raise the transport's [OSError]: no index, struct or value error
    can come out of them, for any state and any device answers. *)
Theorem operations_raise_only_bus_errors w :
  result_or_bus_error (fst (model_info w))
  /\ result_or_bus_error (fst (distance w))
  /\ result_or_bus_error (fst (data_ready w))
  /\ result_or_bus_error (fst (start_ranging w))
  /\ result_or_bus_error (fst (stop_ranging w))
  /\ result_or_bus_error (fst (clear_interrupt w)).
Proof.
  repeat split.
  - apply model_info_outcome.
  - apply distance_outcome.
  - apply data_ready_outcome.
  - apply (write_registerN_outcome _SYSTEM__MODE_START _ _ _
             [Byte.x00; Byte.x87] eq_refl).
  - apply (write_registerN_outcome _SYSTEM__MODE_START _ _ _
             [Byte.x00; Byte.x87] eq_refl).
  - apply (write_registerN_outcome _SYSTEM__INTERRUPT_CLEAR _ _ _
             [Byte.x00; Byte.x86] eq_refl).
Qed.

(** X8: a distance that is returned is the float [v / 10] for an integer
    [v] in 0..65535: a finite number between 0 and 6553.5.  Getting it took
    one two-byte read at register 0x0096, handed to the transport, and
    nothing else, so the reading is not acknowledged by it. *)
Theorem distance_range w x w' :
  distance w = (Ok x, w') ->
  (exists v q,
     0 <= v <= 65535 /\ x = PyFloat.truediv v 10
     /\ PyFloat.value x = Some q /\ (0 <= q)%Q /\ (q <= 6553.5)%Q)
  /\ held w' = false
  /\ trace w' = trace w ++ read_txn [Byte.x00; Byte.x96] 2
  /\ replay (read_txn [Byte.x00; Byte.x96] 2) (dev w) = (dev w', true).
Proof.
  unfold distance, bind at 1.
  destruct (_read_registerN _ 2 w) as [[buf| |] w1] eqn:Hr; try discriminate.
  pose proof (read_registerN_Ok _ _ _ _ _ Hr)
    as (hdr & Hp & _ & Hlen & Hheld & Htr).
  pose proof (read_registerN_replay _ _ _ _ _ Hr) as (hdr' & Hp' & Hrep).
  injection Hp as <-. injection Hp' as <-.
  destruct buf as [|hi [|lo [|? ?]]]; try discriminate Hlen.
  unfold bind. rewrite unpack_H_value. cbn -[PyFloat.truediv].
  intros [= <- <-].
  pose proof (to_Z_range hi). pose proof (to_Z_range lo).
  split; [|auto].
  destruct (truediv_10_value (to_Z hi * 256 + to_Z lo) ltac:(lia))
    as (q & Hq & _ & Hlo & Hhi & _).
  exists (to_Z hi * 256 + to_Z lo), q.
  repeat split; try assumption; lia.
Qed.

(** X9: the verdict of [data_ready] is the exclusive or of bit 0 of the
    status byte and bit 4 of the mux byte; no other bit of either register
    has any influence. *)
Theorem data_ready_bits w status mux w1 w2 :
  _read_registerN _GPIO__TIO_HV_STATUS 1 w = (Ok [status], w1) ->
  _read_registerN _GPIO_HV_MUX__CTRL 1 w1 = (Ok [mux], w2) ->
  data_ready w
    = (Ok (xorb (Z.testbit (to_Z status) 0) (Z.testbit (to_Z mux) 4)), w2).
Proof.
  intros Hs Hm. rewrite (data_ready_run _ _ _ _ _ Hs Hm). do 2 f_equal.
  rewrite land_bit4, land_1_testbit.
  destruct (Z.testbit (to_Z status) 0), (Z.testbit (to_Z mux) 4); reflexivity.
Qed.

End ReadOutcomes.

(** ** The poll loop *)

Section PollLoop.

Context {D : Type} `{T : Transport D}.

Implicit Types (w : world D).

(** X11: the poll loop returns only on a poll that found data: when it
    returns, some [k] below the fuel polls found none, each followed by
    one sleep, and poll [k + 1] found data; the final state is the one
    that poll left. *)
Theorem wait_data_ready_returns fuel w w' :
  wait_data_ready fuel w = (Ok tt, w') ->
  exists k, (k < fuel)%nat /\ ready_after k w w'.
Proof.
  revert w. induction fuel as [|fuel IH]; intros w H; [discriminate|].
  cbn [wait_data_ready] in H.
  apply bind_Ok in H as ([|] & w1 & Hr & Hk).
  - injection Hk as <-. exists O. split; [lia|]. constructor. exact Hr.
  - apply bind_Ok in Hk as ([] & w2 & Hs & Hw).
    destruct (IH _ Hw) as (k & Hlt & Hready).
    exists (S k). split; [lia|].
    econstructor; [exact Hr|]. rewrite Hs. exact Hready.
Qed.

End PollLoop.

(** ** Sessions over whole operations *)

Lemma sessions_closed_app (inside : bool) (e1 e2 : list event) :
  sessions_closed inside e1 = true ->
  sessions_closed inside (e1 ++ e2) = sessions_closed false e2.
Proof.
  revert inside. induction e1 as [|ev e1 IH]; intros inside H.
  - destruct inside; [discriminate | reflexivity].
  - destruct ev; cbn in *; try (apply IH; exact H).
    + apply andb_prop in H as [-> H]. cbn. apply IH. exact H.
    + apply andb_prop in H as [-> H]. cbn. apply IH. exact H.
Qed.

Section Sessions.

Context {D : Type} `{T : Transport D}.

Lemma keeps_quiet {A} (m : M D A) :
  (forall w, snd (m w) = w) -> keeps_session_free m.
Proof.
  intros Hm w Hfree. rewrite Hm. split; [exact Hfree|].
  exists []. split; [symmetry; apply app_nil_r | reflexivity].
Qed.

Lemma keeps_ret {A} (a : A) : keeps_session_free (ret (D := D) a).
Proof. apply keeps_quiet. reflexivity. Qed.

Lemma keeps_raise {A} (e : exn) :
  keeps_session_free (raise (D := D) (A := A) e).
Proof. apply keeps_quiet. reflexivity. Qed.

Lemma keeps_lift {A} (e : exn) (o : option A) :
  keeps_session_free (lift (D := D) e o).
Proof. destruct o; [apply keeps_ret | apply keeps_raise]. Qed.

Lemma keeps_index buf i : keeps_session_free (index (D := D) buf i).
Proof.
  unfold index. destruct (_ !! _); [apply keeps_ret | apply keeps_raise].
Qed.

Lemma keeps_bind {A B} (m : M D A) (k : A -> M D B) :
  keeps_session_free m -> (forall a, keeps_session_free (k a)) ->
  keeps_session_free (bind m k).
Proof.
  intros Hm Hk w Hfree. unfold bind.
  destruct (Hm w Hfree) as (Hh & e1 & He1 & Hc1).
  destruct (m w) as [[a|e|] w1]; cbn in *; eauto.
  destruct (Hk a w1 Hh) as (Hh2 & e2 & He2 & Hc2).
  split; [exact Hh2|]. exists (e1 ++ e2). split.
  - rewrite He2, He1. symmetry. apply app_assoc.
  - rewrite (sessions_closed_app _ _ _ Hc1). exact Hc2.
Qed.

Lemma keeps_sleep : keeps_session_free sleep.
Proof. intros w Hfree. split; [exact Hfree|]. eexists. split; reflexivity. Qed.

Lemma keeps_I2CDevice address : keeps_session_free (I2CDevice address).
Proof.
  intros w Hfree. unfold I2CDevice.
  destruct (bus_probe _ _) as [d [|]]; (split; [exact Hfree|]);
    eexists; split; reflexivity.
Qed.

Lemma keeps_write_registerN address data len :
  keeps_session_free (_write_registerN address data len).
Proof.
  intros w _.
  destruct (write_registerN_events address data len w) as (evs & -> & Hc).
  cbn. eauto.
Qed.

Lemma keeps_read_registerN address len :
  keeps_session_free (_read_registerN address len).
Proof.
  intros w Hfree.
  destruct (read_registerN_events address len w Hfree) as (evs & -> & Hc).
  cbn. eauto.
Qed.

(** Split a sequence of driver steps, as [grows_step] does. *)
Ltac keeps_step :=
  lazymatch goal with
  | |- keeps_session_free (bind _ _) => apply keeps_bind; [|intros ?]
  | |- keeps_session_free (if ?b then _ else _) => destruct b
  | |- keeps_session_free (let '(_, _) := ?p in _) => destruct p
  end.

Ltac keeps_solve :=
  repeat keeps_step;
  auto using keeps_ret, keeps_raise, keeps_lift, keeps_index, keeps_sleep,
    keeps_I2CDevice, keeps_write_registerN, keeps_read_registerN.

Lemma keeps_model_info : keeps_session_free model_info.
Proof. unfold model_info. keeps_solve. Qed.

Lemma keeps_distance : keeps_session_free distance.
Proof. unfold distance. keeps_solve. Qed.

Lemma keeps_data_ready : keeps_session_free data_ready.
Proof. unfold data_ready, _interrupt_polarity. keeps_solve. Qed.

Lemma keeps_wait_data_ready fuel : keeps_session_free (wait_data_ready fuel).
Proof.
  induction fuel as [|fuel IH]; cbn [wait_data_ready].
  - apply keeps_quiet. reflexivity.
  - pose proof keeps_data_ready. keeps_solve.
Qed.

Lemma keeps_sensor_init fuel : keeps_session_free (_sensor_init fuel).
Proof.
  unfold _sensor_init, start_ranging, stop_ranging, clear_interrupt.
  pose proof (keeps_wait_data_ready fuel). keeps_solve.
Qed.

(** X12: started with the bus lock free, construction and every public
    operation end with the lock free and with every session they opened
    closed again, whether they return, raise, or are still polling. *)
Theorem operations_keep_session_free address fuel :
  keeps_session_free (__init__ address fuel)
  /\ keeps_session_free model_info
  /\ keeps_session_free distance
  /\ keeps_session_free data_ready
  /\ keeps_session_free start_ranging
  /\ keeps_session_free stop_ranging
  /\ keeps_session_free clear_interrupt.
Proof.
  repeat apply conj.
  - unfold __init__. pose proof keeps_model_info.
    pose proof (keeps_sensor_init fuel). keeps_solve.
  - apply keeps_model_info.
  - apply keeps_distance.
  - apply keeps_data_ready.
  - apply keeps_write_registerN.
  - apply keeps_write_registerN.
  - apply keeps_write_registerN.
Qed.

End Sessions.

(** ** Construction, whatever the device does *)

Section ConstructionOutcomes.

Context {D : Type} `{T : Transport D}.

Implicit Types (w : world D).

Lemma write_registerN_Ok address data w w' :
  _write_registerN address data None w = (Ok tt, w') ->
  exists hdr,
    pack_H address = Some hdr
    /\ held w' = false
    /\ trace w' = trace w ++ write_txn hdr data.
Proof.
  destruct (pack_H address) as [hdr|] eqn:Hp.
  - rewrite (write_registerN_run _ _ _ _ _ Hp). cbn zeta.
    rewrite slice_to_all.
    destruct (bus_write _ _) as [d [|]]; [|discriminate].
    intros [= <-]. exists hdr. auto.
  - rewrite write_registerN_bad_address by assumption. discriminate.
Qed.

Lemma sensor_init_Ok fuel w w' :
  _sensor_init fuel w = (Ok tt, w') ->
  held w' = false
  /\ exists k,
       (k < fuel)%nat
       /\ trace w'
          = trace w
            ++ write_txn [Byte.x00; Byte.x2d] init_block
            ++ write_txn [Byte.x00; Byte.x87] [Byte.x40]
            ++ idle_polls k ++ poll_txn
            ++ write_txn [Byte.x00; Byte.x86] [Byte.x01]
            ++ write_txn [Byte.x00; Byte.x87] [Byte.x00]
            ++ write_txn [Byte.x00; Byte.x08] [Byte.x09]
            ++ write_txn [Byte.x00; Byte.x0b] [Byte.x00].
Proof.
  unfold _sensor_init. rewrite init_seq_block. intros H.
  apply bind_Ok in H as (blk & w0 & Hblk & H). injection Hblk as <- <-.
  apply bind_Ok in H as ([] & w1 & H1 & H).
  apply bind_Ok in H as ([] & w2 & H2 & H).
  apply bind_Ok in H as ([] & w3 & H3 & H).
  apply bind_Ok in H as ([] & w4 & H4 & H).
  apply bind_Ok in H as ([] & w5 & H5 & H).
  apply bind_Ok in H as ([] & w6 & H6 & H7).
  apply write_registerN_Ok in H1 as (h1 & [= <-] & _ & T1).
  apply write_registerN_Ok in H2 as (h2 & [= <-] & _ & T2).
  apply wait_data_ready_returns in H3 as (k & Hk & Hready).
  destruct (wait_data_ready_Ok _ _ _ Hready (S k) ltac:(lia)) as (_ & T3).
  apply write_registerN_Ok in H4 as (h4 & [= <-] & _ & T4).
  apply write_registerN_Ok in H5 as (h5 & [= <-] & _ & T5).
  apply write_registerN_Ok in H6 as (h6 & [= <-] & _ & T6).
  apply write_registerN_Ok in H7 as (h7 & [= <-] & Hheld & T7).
  split; [exact Hheld|]. exists k. split; [exact Hk|].
  rewrite T7, T6, T5, T4, T3, T2, T1.
  repeat rewrite <- app_assoc. reflexivity.
Qed.

(** X13: whenever construction returns, on any transport, the device had
    answered the probe, the identity read had given exactly
    (0xEA, 0xCC, 0x10), and the operations issued are the identity read,
    the init-block write, the start write, some [k] polls without data
    (each followed by a sleep) and one poll with data, the clear write, the
    stop write and the two trailing writes, with the session free. *)
Theorem construction_returned address fuel w w' :
  __init__ address fuel w = (Ok tt, w') ->
  (exists w0 w1,
     I2CDevice address w = (Ok tt, w0)
     /\ model_info w0 = (Ok (0xEA, 0xCC, 0x10), w1))
  /\ held w' = false
  /\ exists k, (k < fuel)%nat
               /\ trace w' = trace w ++ construction_txn address k.
Proof.
  unfold __init__. intros H.
  apply bind_Ok in H as ([] & w0 & H0 & H).
  apply bind_Ok in H as ([[mid mt] mr] & w1 & H1 & H).
  destruct (mid =? 0xEA) eqn:E1; [|discriminate].
  destruct (mt =? 0xCC) eqn:E2; [|discriminate].
  destruct (mr =? 0x10) eqn:E3; [|discriminate].
  apply Z.eqb_eq in E1, E2, E3. subst. cbn [negb orb] in H.
  apply sensor_init_Ok in H as (Hheld & k & Hk & Ht).
  split; [eauto|]. split; [exact Hheld|]. exists k. split; [exact Hk|].
  apply I2CDevice_Ok in H0 as (T0 & _).
  apply model_info_Ok in H1 as (_ & T1).
  rewrite Ht, T1, T0. unfold construction_txn.
  repeat rewrite <- app_assoc. reflexivity.
Qed.

Lemma polling_of_bus_error {A} (o : outcome A) :
  result_or_bus_error o -> result_bus_error_or_polling o.
Proof. destruct o as [a|[]|]; cbn; tauto. Qed.

Lemma bind_polling {A B} (m : M D A) (k : A -> M D B) w :
  result_bus_error_or_polling (fst (m w)) ->
  (forall a w1, result_bus_error_or_polling (fst (k a w1))) ->
  result_bus_error_or_polling (fst (bind m k w)).
Proof.
  unfold bind. intros Hm Hk. destruct (m w) as [[a|e|] w1]; cbn in *; auto.
Qed.

Lemma wait_data_ready_outcome fuel w :
  result_bus_error_or_polling (fst (wait_data_ready fuel w)).
Proof.
  revert w. induction fuel as [|fuel IH]; intros w; [exact I|].
  cbn [wait_data_ready]. apply bind_polling.
  - apply polling_of_bus_error, data_ready_outcome.
  - intros [|] w1; [exact I|]. apply bind_polling; [exact I|]. auto.
Qed.

Lemma sensor_init_outcome fuel w :
  result_bus_error_or_polling (fst (_sensor_init fuel w)).
Proof.
  unfold _sensor_init. rewrite init_seq_block.
  pose proof (fun a d l w h Hp => polling_of_bus_error _
                (write_registerN_outcome a d l w h Hp)) as Hw.
  unfold start_ranging, stop_ranging, clear_interrupt.
  apply bind_polling; [exact I|]. intros blk w0.
  apply bind_polling; [apply (Hw 0x002D _ _ _ [Byte.x00; Byte.x2d] eq_refl)|].
  intros _ w1.
  apply bind_polling;
    [apply (Hw _SYSTEM__MODE_START _ _ _ [Byte.x00; Byte.x87] eq_refl)|].
  intros _ w2.
  apply bind_polling; [apply wait_data_ready_outcome|]. intros _ w3.
  apply bind_polling;
    [apply (Hw _SYSTEM__INTERRUPT_CLEAR _ _ _ [Byte.x00; Byte.x86] eq_refl)|].
  intros _ w4.
  apply bind_polling;
    [apply (Hw _SYSTEM__MODE_START _ _ _ [Byte.x00; Byte.x87] eq_refl)|].
  intros _ w5.
  apply bind_polling;
    [apply (Hw _VL53L1X_VHV_CONFIG__TIMEOUT_MACROP_LOOP_BOUND _ _ _
              [Byte.x00; Byte.x08] eq_refl)|].
  intros _ w6.
  apply (Hw 0x0B _ _ _ [Byte.x00; Byte.x0b] eq_refl).
Qed.

(** X14: construction ends in one of five ways and no other: it returns;
    it is still polling; the transport raised [OSError]; the probe found
    no device ([ValueError], with nothing but the probe issued); or the
    identity is wrong ([RuntimeError] with the message
    "Wrong sensor ID or type!", with nothing but the probe and the
    identity read issued). *)
Theorem construction_outcomes address fuel w :
  match fst (__init__ address fuel w) with
  | Ok _ | NoFuel | Raise OSError => True
  | Raise ValueError =>
      trace (snd (__init__ address fuel w)) = trace w ++ [EvProbe address]
  | Raise (RuntimeError msg) =>
      msg = "Wrong sensor ID or type!"%string
      /\ trace (snd (__init__ address fuel w))
         = trace w ++ EvProbe address :: read_txn [Byte.x01; Byte.x0f] 3
  | Raise _ => False
  end.
Proof.
  destruct (__init__ address fuel w) as [o wf] eqn:Hrun. cbn [fst snd].
  unfold __init__, bind at 1 in Hrun.
  destruct (I2CDevice address w) as [[[]|e0|] w0] eqn:H0.
  2:{ unfold I2CDevice in H0.
      destruct (bus_probe _ _) as [d [|]]; [discriminate|].
      injection H0 as <- <-. injection Hrun as <- <-. reflexivity. }
  2:{ injection Hrun as <- <-. exact I. }
  unfold bind at 1 in Hrun.
  pose proof (model_info_outcome w0) as Hinfo.
  destruct (model_info w0) as [[[[mid mt] mr]|e1|] w1] eqn:H1;
    cbn [fst] in Hinfo.
  2:{ injection Hrun as <- <-. destruct e1; try contradiction. exact I. }
  2:{ contradiction. }
  destruct (negb (mid =? 0xEA) || negb (mt =? 0xCC) || negb (mr =? 0x10)).
  - injection Hrun as <- <-. split; [reflexivity|].
    apply I2CDevice_Ok in H0 as (T0 & _).
    apply model_info_Ok in H1 as (_ & T1).
    rewrite T1, T0, <- app_assoc. reflexivity.
  - pose proof (sensor_init_outcome fuel w1) as Hs.
    rewrite Hrun in Hs. cbn [fst] in Hs.
    destruct o as [?|[]|]; cbn in Hs; try contradiction; exact I.
Qed.

End ConstructionOutcomes.

(** ** The further properties on concrete devices *)

Lemma read_registerN_returns_witness :
  exists buf w',
    _read_registerN (T := Loopback.transport) 0x0096 2
      (Loopback.holding 0x96 [Byte.x03; Byte.xe8]) = (Ok buf, w')
    /\ length buf = 2%nat /\ held w' = false.
Proof.
  pose proof (read_registerN_returns (T := Loopback.transport) 0x0096 2
                (Loopback.holding 0x96 [Byte.x03; Byte.xe8]) _ _ eq_refl)
    as (_ & _ & Hlen & Hheld & _).
  eexists _, _. split; [reflexivity|]. split; [exact Hlen | exact Hheld].
Defined.

Lemma primitives_reject_wide_address_witness :
  _write_registerN (T := Loopback.transport) 0x10000 [Byte.x01] None
    (World Loopback.blank false [])
    = (Raise StructError, World Loopback.blank false [EvEnter; EvExit])
  /\ _read_registerN (T := Loopback.transport) 0x10000 1
       (World Loopback.blank false [])
    = (Raise StructError, World Loopback.blank false [EvEnter; EvExit]).
Proof.
  apply (primitives_reject_wide_address (T := Loopback.transport) 0x10000
           [Byte.x01] None 1 (World Loopback.blank false [])); lia.
Defined.

Lemma read_registerN_rejects_negative_length_witness :
  _read_registerN (T := Loopback.transport) 0x0031 (-1)
    (World Loopback.blank false [])
  = (Raise ValueError, World Loopback.blank false []).
Proof.
  apply (read_registerN_rejects_negative_length (T := Loopback.transport)
           0x0031 (-1) (World Loopback.blank false [])).
  lia.
Defined.

Lemma write_registerN_length_edges_witness :
  exists hdr,
    pack_H 0x0087 = Some hdr /\ length hdr = 2%nat
    /\ trace (snd (_write_registerN (T := Loopback.transport) 0x0087
                     [Byte.x01; Byte.x02; Byte.x03] (Some 7)
                     (World Loopback.blank false [])))
       = [EvEnter; EvWrite (hdr ++ [Byte.x01; Byte.x02; Byte.x03]); EvExit]
    /\ trace (snd (_write_registerN (T := Loopback.transport) 0x0087
                     [Byte.x01; Byte.x02; Byte.x03] (Some (-2))
                     (World Loopback.blank false [])))
       = [EvEnter; EvWrite (hdr ++ [Byte.x01]); EvExit].
Proof.
  destruct (write_registerN_length_edges (T := Loopback.transport) 0x0087
              [Byte.x01; Byte.x02; Byte.x03] (World Loopback.blank false [])
              ltac:(lia)) as (hdr & Hp & Hlen & Hbig & _ & Hneg).
  exists hdr. split; [exact Hp|]. split; [exact Hlen|]. split.
  - apply (Hbig 7). cbn. lia.
  - apply (Hneg (-2)). lia.
Defined.

Lemma read_registerN_address_phase_failure_witness :
  _read_registerN (T := Flaky.transport Loopback.transport) 0x0031 1
    (Flaky.failing_after Loopback.blank 0)
  = (Raise OSError,
     World (Loopback.blank, O) false
       [EvEnter; EvWrite [Byte.x00; Byte.x31]; EvExit]).
Proof.
  apply (read_registerN_address_phase_failure
           (T := Flaky.transport Loopback.transport) 0x0031 1
           (Flaky.failing_after Loopback.blank 0) [Byte.x00; Byte.x31]
           (Loopback.blank, O)).
  - reflexivity.
  - lia.
  - reflexivity.
Defined.

Lemma model_info_returns_witness :
  fst (model_info (T := Loopback.transport) Sensor.power_on)
  = Ok (0xEA, 0xCC, 0x10).
Proof.
  destruct (model_info_returns (T := Loopback.transport) Sensor.power_on
              [Byte.xea; Byte.xcc; Byte.x10] _ eq_refl)
    as (b0 & b1 & b2 & Hbuf & Hinfo & _).
  injection Hbuf as <- <- <-. rewrite Hinfo. reflexivity.
Defined.

Lemma distance_range_witness :
  exists x q,
    fst (distance (T := Loopback.transport)
           (Loopback.holding 0x96 [Byte.xff; Byte.xff])) = Ok x
    /\ PyFloat.value x = Some q /\ (0 <= q)%Q /\ (q <= 6553.5)%Q.
Proof.
  destruct (distance_range (T := Loopback.transport)
              (Loopback.holding 0x96 [Byte.xff; Byte.xff])
              (PyFloat.truediv 65535 10) _ eq_refl)
    as ((v & q & _ & _ & Hq & Hlo & Hhi) & _).
  exists (PyFloat.truediv 65535 10), q. split; [reflexivity|]. auto.
Defined.

Lemma data_ready_bits_witness :
  data_ready (T := Loopback.transport)
    (Loopback.holding 0x30 [Byte.x10; Byte.x00])
  = (Ok true,
     snd (data_ready (T := Loopback.transport)
            (Loopback.holding 0x30 [Byte.x10; Byte.x00]))).
Proof.
  rewrite (data_ready_bits (T := Loopback.transport)
             (Loopback.holding 0x30 [Byte.x10; Byte.x00])
             Byte.x00 Byte.x10 _ _ eq_refl eq_refl).
  reflexivity.
Defined.

Lemma wait_data_ready_returns_witness :
  exists k,
    (k < 1)%nat
    /\ ready_after (T := Loopback.transport) k
         (Loopback.holding 0x30 [Byte.x10; Byte.x00])
         (snd (wait_data_ready (T := Loopback.transport) 1
                 (Loopback.holding 0x30 [Byte.x10; Byte.x00]))).
Proof.
  apply wait_data_ready_returns. vm_compute. reflexivity.
Defined.

Lemma construction_returned_witness :
  exists k,
    (k < 5)%nat
    /\ trace (snd (__init__ (T := Sensor.transport) 41 5 Sensor.power_on))
       = [] ++ construction_txn 41 k.
Proof.
  apply (construction_returned (T := Sensor.transport) 41 5 Sensor.power_on).
  vm_compute. reflexivity.
Defined.
